(** * mbtifortune: the fortune endpoint and its client view

    A shallow embedding of [src/app/api/fortune/route.ts] (the [POST]
    handler) and of the page component (its [energyTone] memo, its
    [handleSubmit] callback and its personality-type selector), with the
    properties the specification states about them.

    JavaScript strings are sequences of UTF-16 code units, JSON values are
    an inductive type, and code that may throw returns a [Completion]. *)

From Stdlib Require Import List NArith Bool String Ascii Lia.
Import ListNotations.

Set Warnings "-register-all".
Local Open Scope N_scope.

(** ** JavaScript values *)

Module JS.

(** A string is its sequence of UTF-16 code units. *)
Definition jsstring := list N.

Definition jsstring_eqb (a b : jsstring) : bool :=
  if list_eq_dec N.eq_dec a b then true else false.

(** *** String literals

    The literals of the source are written here as UTF-8 text and decoded
    to code units: [utf8_points] reads the code points, [utf16_units]
    encodes them. *)

Definition cont (b : N) : N := N.land b 63.

Fixpoint utf8_points (bs : list N) : list N :=
  match bs with
  | [] => []
  | b0 :: r0 =>
      if b0 <? 128 then b0 :: utf8_points r0
      else if b0 <? 224 then
        match r0 with
        | b1 :: r1 => (N.land b0 31 * 64 + cont b1) :: utf8_points r1
        | [] => []
        end
      else if b0 <? 240 then
        match r0 with
        | b1 :: b2 :: r2 =>
            (N.land b0 15 * 4096 + cont b1 * 64 + cont b2) :: utf8_points r2
        | _ => []
        end
      else
        match r0 with
        | b1 :: b2 :: b3 :: r3 =>
            (N.land b0 7 * 262144 + cont b1 * 4096 + cont b2 * 64 + cont b3)
              :: utf8_points r3
        | _ => []
        end
  end.

Definition utf16_units (p : N) : list N :=
  if p <? 65536 then [p]
  else [55296 + (p - 65536) / 1024; 56320 + (p - 65536) mod 1024].

Definition lit (s : string) : jsstring :=
  flat_map utf16_units
    (utf8_points (map (fun a => N_of_ascii a) (list_ascii_of_string s))).

(** The double quote, which the literals above cannot hold. *)
Definition dquote : jsstring := [34].

(** *** Values

    A number is an IEEE 754 binary64 value, kept as its 64-bit pattern.
    An object is the list of its own properties, in insertion order. *)
Inductive Value : Type :=
| Undefined
| Null
| Bool (b : bool)
| Number (bits : N)
| Str (s : jsstring)
| Arr (items : list Value)
| Obj (props : list (jsstring * Value)).

(** What an evaluation ends in: a value, or a thrown exception. *)
Inductive Completion (E A : Type) : Type :=
| Returned (a : A)
| Thrown (e : E).
Arguments Returned {E A} a.
Arguments Thrown {E A} e.

Definition bind {E A B} (c : Completion E A) (k : A -> Completion E B)
  : Completion E B :=
  match c with
  | Returned a => k a
  | Thrown e => Thrown e
  end.

Notation "x <- c ;; k" := (bind c (fun x => k))
  (at level 61, c at next level, right associativity).

(** The exceptions of the handler.  The text an engine puts in a
    [TypeError] or a [SyntaxError] is not modelled; [Error] carries the
    message it was constructed with; [OpenAIError] is what the
    constructor of the [openai] package throws when it is given no key
    (its message changes with the version of the package and is not
    modelled); [Other] is any other thrown value (what a rejected service
    call carries). *)
Inductive Exn : Type :=
| TypeError
| SyntaxError
| Error (message : jsstring)
| OpenAIError
| Other (reason : Value).

Definition Result := Completion Exn.

(** *** Operators *)

Inductive TypeTag := TUndefined | TObject | TBoolean | TNumber | TString.

(** [typeof v]; [typeof null] is ["object"], and so is an array's. *)
Definition typeof (v : Value) : TypeTag :=
  match v with
  | Undefined => TUndefined
  | Null | Arr _ | Obj _ => TObject
  | Bool _ => TBoolean
  | Number _ => TNumber
  | Str _ => TString
  end.

Definition isArray (v : Value) : bool :=
  match v with Arr _ => true | _ => false end.

(** A binary64 pattern is a NaN when its exponent is all ones and its
    fraction is not zero. *)
Definition isNaN (bits : N) : bool :=
  (N.land (N.shiftr bits 52) 2047 =? 2047)
  && negb (N.land bits 4503599627370495 =? 0).

(** [+0] and [-0]: every bit below the sign is zero. *)
Definition isZero (bits : N) : bool :=
  N.land bits 9223372036854775807 =? 0.

(** A binary64 pattern is finite when its exponent is not all ones. *)
Definition isFinite (bits : N) : bool :=
  negb (N.land (N.shiftr bits 52) 2047 =? 2047).

(** What [JSON.stringify] writes for a number, read back: [null] for an
    infinity or a NaN, [0] for either zero, the number itself
    otherwise. *)
Definition serializedNumber (bits : N) : Value :=
  if isFinite bits then Number (if isZero bits then 0 else bits) else Null.

(** The JSON value that the text [JSON.stringify(v)] denotes, which is
    what the reader of a body written from [v] gets; [None] when
    [JSON.stringify(v)] is [undefined] and there is no text.  An
    [undefined] element of an array is written [null], an [undefined]
    property is left out, a string is written with the escapes that read
    back as the same code units. *)
Fixpoint serialized (v : Value) : option Value :=
  match v with
  | Undefined => None
  | Null => Some Null
  | Bool b => Some (Bool b)
  | Number bits => Some (serializedNumber bits)
  | Str s => Some (Str s)
  | Arr items =>
      Some (Arr (map (fun x => match serialized x with
                               | Some y => y
                               | None => Null
                               end) items))
  | Obj props =>
      Some (Obj (flat_map (fun p => match p with
                                    | (k, x) =>
                                        match serialized x with
                                        | Some y => [(k, y)]
                                        | None => []
                                        end
                                    end) props))
  end.

(** ToBoolean: what [!v] and [v && ...] test. *)
Definition truthy (v : Value) : bool :=
  match v with
  | Undefined | Null => false
  | Bool b => b
  | Number bits => negb (isZero bits || isNaN bits)
  | Str s => match s with [] => false | _ => true end
  | Arr _ | Obj _ => true
  end.

Definition nullish (v : Value) : bool :=
  match v with Undefined | Null => true | _ => false end.

(** [a ?? b] *)
Definition coalesce (a b : Value) : Value := if nullish a then b else a.

Definition lookup (k : jsstring) (ps : list (jsstring * Value))
  : option Value :=
  match find (fun p => jsstring_eqb (fst p) k) ps with
  | Some p => Some (snd p)
  | None => None
  end.

(** [v.k] for [v] neither [null] nor [undefined] and [k] one of the
    property names this program reads ([mbti], [concern], [choices],
    [message], [content], [text], [energyLevel], [error]): none is defined
    on a built-in prototype, so a primitive or an array has none of them,
    and an object has the ones it owns. *)
Definition prop (v : Value) (k : jsstring) : Value :=
  match v with
  | Obj ps => match lookup k ps with Some x => x | None => Undefined end
  | _ => Undefined
  end.

(** [v.k]: reading a property of [null] or [undefined] throws. *)
Definition get (v : Value) (k : jsstring) : Result Value :=
  if nullish v then Thrown TypeError else Returned (prop v k).

(** [v?.k] *)
Definition getOpt (v : Value) (k : jsstring) : Value :=
  if nullish v then Undefined else prop v k.

(** [v[0]] *)
Definition get0 (v : Value) : Result Value :=
  match v with
  | Undefined | Null => Thrown TypeError
  | Arr items => Returned (match items with x :: _ => x | [] => Undefined end)
  | Str s => Returned (match s with c :: _ => Str [c] | [] => Undefined end)
  | Obj ps =>
      Returned (match lookup [48] ps with Some x => x | None => Undefined end)
  | Bool _ | Number _ => Returned Undefined
  end.

(** [k in v], for [v] an object or an array and [k] one of the names
    above. *)
Definition hasProperty (k : jsstring) (v : Value) : bool :=
  match v with
  | Obj ps => match lookup k ps with Some _ => true | None => false end
  | _ => false
  end.

(** *** String methods *)

(** WhiteSpace and LineTerminator of ECMAScript, which [trim] strips. *)
Definition isWhiteSpace (c : N) : bool :=
  ((9 <=? c) && (c <=? 13))
  || (c =? 32) || (c =? 160) || (c =? 5760)
  || ((8192 <=? c) && (c <=? 8202))
  || (c =? 8232) || (c =? 8233) || (c =? 8239) || (c =? 8287)
  || (c =? 12288) || (c =? 65279).

Fixpoint trimStart (s : jsstring) : jsstring :=
  match s with
  | c :: r => if isWhiteSpace c then trimStart r else s
  | [] => []
  end.

Definition trimEnd (s : jsstring) : jsstring := rev (trimStart (rev s)).

Definition trim (s : jsstring) : jsstring := trimEnd (trimStart s).

(** A string without any white space. *)
Definition solid (s : jsstring) : bool :=
  forallb (fun c => negb (isWhiteSpace c)) s.

Fixpoint startsWith (s p : jsstring) : bool :=
  match p, s with
  | [], _ => true
  | a :: p', b :: s' => (a =? b) && startsWith s' p'
  | _ :: _, [] => false
  end.

(** [s.includes(sub)] *)
Fixpoint includes (s sub : jsstring) : bool :=
  startsWith s sub
  || match s with
     | [] => false
     | _ :: r => includes r sub
     end.

(** [parts.join(sep)] on an array of strings *)
Fixpoint join (sep : jsstring) (parts : list jsstring) : jsstring :=
  match parts with
  | [] => []
  | [p] => p
  | p :: rest => p ++ sep ++ join sep rest
  end.

Definition isAscii (c : N) : bool := c <? 128.

Definition asciiUpper (c : N) : N :=
  if (97 <=? c) && (c <=? 122) then c - 32 else c.

(** *** Built-ins taken as given

    Three operations of the engine are not spelled out: upper-casing
    outside Basic Latin (the Unicode case mappings), [JSON.parse] ([None]
    when it throws a [SyntaxError]) and the conversion to string of a value
    that is not a string (it may throw; [Thrown m] is a [TypeError] of
    message [m]). *)
Record Builtins : Type := {
  upperUnicode : jsstring -> jsstring;
  JSON_parse : jsstring -> option Value;
  toStringOther : Value -> Completion jsstring jsstring
}.

(** [s.toUpperCase()]: on a string of Basic Latin the letters a-z go to
    A-Z and nothing else changes. *)
Definition toUpperCase (rt : Builtins) (s : jsstring) : jsstring :=
  if forallb isAscii s then map asciiUpper s else upperUnicode rt s.

(** [v.trim()]: a string has the method; on anything else the call
    throws (no property to read on [null] and [undefined], and no function
    under that name on a value that came out of [JSON.parse]). *)
Definition callTrim (v : Value) : Result jsstring :=
  match v with
  | Str s => Returned (trim s)
  | _ => Thrown TypeError
  end.

(** ToString *)
Definition ToString (rt : Builtins) (v : Value)
  : Completion jsstring jsstring :=
  match v with
  | Str s => Returned s
  | _ => toStringOther rt v
  end.

End JS.

(** ** The fortune endpoint: [src/app/api/fortune/route.ts] *)

Module Route.
Import JS.

(** [process.env]: the credential is a string or is not set. *)
Record Env : Type := { OPENAI_API_KEY : option jsstring }.

Definition envValue (o : option jsstring) : Value :=
  match o with Some s => Str s | None => Undefined end.

(** The incoming request, by the text of its body. *)
Record Request : Type := { body : jsstring }.

(** [await request.json()] *)
Definition request_json (rt : Builtins) (request : Request) : Result Value :=
  match JSON_parse rt (body request) with
  | Some v => Returned v
  | None => Thrown SyntaxError
  end.

(** A response: its status, and the JSON value its body text denotes. *)
Record Response : Type := { status : N; json : Value }.

(** [NextResponse.json(v, { status })]: the body is the text
    [JSON.stringify(v)]; a value with no such text makes the call throw. *)
Definition NextResponse_json (v : Value) (st : N) : Result Response :=
  match serialized v with
  | Some written => Returned {| status := st; json := written |}
  | None => Thrown TypeError
  end.

(** The effects of one run, in order. *)
Inductive Event : Type :=
| Create (params : Value)
| ConsoleError (label : jsstring) (e : Exn).

(** The completion service: what [openai.chat.completions.create] resolves
    to for given parameters, or what it rejects with. *)
Definition Service := Value -> Result Value.

Definition num3 : Value := Number 4613937818241073152.
Definition num0_8 : Value := Number 4605380978949069210.

Definition FORTUNE_SCHEMA : Value :=
  Obj [
    (lit "type", Str (lit "object"));
    (lit "additionalProperties", Bool false);
    (lit "properties", Obj [
      (lit "headline", Obj [
        (lit "type", Str (lit "string"));
        (lit "description", Str (lit "점괘를 요약하는 한 줄 헤드라인"))]);
      (lit "fortune", Obj [
        (lit "type", Str (lit "string"));
        (lit "description", Str (lit "오늘의 핵심 운세 설명"))]);
      (lit "actionSteps", Obj [
        (lit "type", Str (lit "array"));
        (lit "minItems", num3);
        (lit "items", Obj [(lit "type", Str (lit "string"))]);
        (lit "description", Str (lit "실천 가능한 행동 루틴 3단계"))]);
      (lit "luckyItem", Obj [
        (lit "type", Str (lit "string"));
        (lit "description", Str (lit "오늘의 행운을 끌어올 아이템"))]);
      (lit "energyLevel", Obj [
        (lit "type", Str (lit "string"));
        (lit "description", Str (lit "높음/보통/낮음 중 하나"))])]);
    (lit "required", Arr [
      Str (lit "headline"); Str (lit "fortune"); Str (lit "actionSteps");
      Str (lit "luckyItem"); Str (lit "energyLevel")])
  ].

Definition newline : jsstring := [10].

Definition systemContent : jsstring :=
  lit "너는 감성적인 MBTI 기반 점성술가다. 모든 답변은 자연스러운 한국어로 작성하고, 사용자가 바로 행동으로 옮길 수 있는 조언을 제공한다.".

(** [concern || '...'] *)
Definition concernOrDefault (concern : jsstring) : jsstring :=
  if truthy (Str concern) then concern
  else lit "특별한 고민은 적지 않았어요.".

(** The template literal of the user message. *)
Definition userContent (mbti concern : jsstring) : jsstring :=
  lit "MBTI: " ++ mbti ++ newline
  ++ lit "상황: " ++ concernOrDefault concern ++ newline
  ++ newline
  ++ lit "필수 규칙:" ++ newline
  ++ lit "- 결과는 JSON 형식으로만 작성" ++ newline
  ++ lit "- actionSteps는 3개의 짧고 실천적인 문장으로 구성" ++ newline
  ++ lit "- energyLevel은 " ++ dquote ++ lit "높음" ++ dquote
  ++ lit ", " ++ dquote ++ lit "보통" ++ dquote
  ++ lit ", " ++ dquote ++ lit "낮음" ++ dquote
  ++ lit " 중 가장 어울리는 단어 사용".

(** The argument of [openai.chat.completions.create]. *)
Definition createParams (mbti concern : jsstring) : Value :=
  Obj [
    (lit "model", Str (lit "gpt-4o-mini"));
    (lit "temperature", num0_8);
    (lit "response_format", Obj [
      (lit "type", Str (lit "json_schema"));
      (lit "json_schema", Obj [
        (lit "name", Str (lit "fortune_schema"));
        (lit "schema", FORTUNE_SCHEMA);
        (lit "strict", Bool true)])]);
    (lit "messages", Arr [
      Obj [(lit "role", Str (lit "system"));
           (lit "content", Str systemContent)];
      Obj [(lit "role", Str (lit "user"));
           (lit "content", Str (userContent mbti concern))]])
  ].

(** [/^[IE][NS][TF][JP]$/.test(s)] *)
Definition oneOf (a b c : N) : bool := (c =? a) || (c =? b).

Definition mbtiPattern_test (s : jsstring) : bool :=
  match s with
  | [c1; c2; c3; c4] =>
      oneOf 73 69 c1 && oneOf 78 83 c2 && oneOf 84 70 c3 && oneOf 74 80 c4
  | _ => false
  end.

(** [payload.mbti?.trim().toUpperCase() ?? ''] *)
Definition read_mbti (rt : Builtins) (payload : Value) : Result jsstring :=
  v <- get payload (lit "mbti") ;;
  if nullish v then Returned []
  else t <- callTrim v ;; Returned (toUpperCase rt t).

(** [payload.concern?.trim() ?? ''] *)
Definition read_concern (payload : Value) : Result jsstring :=
  v <- get payload (lit "concern") ;;
  if nullish v then Returned [] else callTrim v.

(** Lines 71 and 72, in their order. *)
Definition read_fields (rt : Builtins) (payload : Value)
  : Result (jsstring * jsstring) :=
  mbti <- read_mbti rt payload ;;
  concern <- read_concern payload ;;
  Returned (mbti, concern).

(** [!mbti || !mbtiPattern.test(mbti)] *)
Definition mbti_rejected (mbti : jsstring) : bool :=
  negb (truthy (Str mbti)) || negb (mbtiPattern_test mbti).

(** The callback of [message.map]: the text of one block. *)
Definition blockText (block : Value) : jsstring :=
  if truthy block
     && (match typeof block with TObject => true | _ => false end)
     && hasProperty (lit "text") block
  then match prop block (lit "text") with
       | Str t => t
       | _ => []
       end
  else [].

(** [rawContent], from [choice?.message?.content] widened to unknown. *)
Definition rawContentOf (message : Value) : jsstring :=
  match message with
  | Str s => s
  | Arr blocks => join newline (map blockText blocks)
  | _ => []
  end.

(** [completion.choices[0]?.message?.content] *)
Definition messageContent (completion : Value) : Result Value :=
  choices <- get completion (lit "choices") ;;
  choice <- get0 choices ;;
  Returned (getOpt (getOpt choice (lit "message")) (lit "content")).

Definition emptyModelResponse : Exn := Error (lit "모델 응답이 비어 있습니다.").

(** Lines 113 to 133: from the resolved completion to the parsed object. *)
Definition parseCompletion (rt : Builtins) (completion : Value)
  : Result Value :=
  message <- messageContent completion ;;
  let rawContent := rawContentOf message in
  if negb (truthy (Str rawContent)) then Thrown emptyModelResponse
  else match JSON_parse rt rawContent with
       | Some parsed => Returned parsed
       | None => Thrown SyntaxError
       end.

Definition errorBody (message : jsstring) : Value :=
  Obj [(lit "error", Str message)].

(** [NextResponse.json({ error: message }, { status })]: an object of one
    string is written and read back as itself, and the call returns. *)
Definition errorResponse (message : jsstring) (st : N) : Response :=
  {| status := st; json := errorBody message |}.

Definition missingKey : Response :=
  errorResponse (lit "OPENAI_API_KEY가 설정되지 않았습니다.") 500.

Definition unreadableBody : Response :=
  errorResponse (lit "요청 본문을 읽을 수 없습니다.") 400.

Definition invalidMbti : Response :=
  errorResponse (lit "유효한 MBTI 유형을 선택해 주세요.") 400.

Definition generationFailed : Response :=
  errorResponse
    (lit "점괘 생성 중 문제가 발생했어요. 잠시 후 다시 시도해 주세요.")
    500.

(** The two shapes of a response body.  The FortuneResponse shape is the
    one [FORTUNE_SCHEMA] declares: the five required properties, each of
    the type of its name, and no additional property.  The error shape is
    [{ error: string }]. *)
Definition isString (v : Value) : bool :=
  match v with Str _ => true | _ => false end.

Definition isStringArray (v : Value) : bool :=
  match v with Arr items => forallb isString items | _ => false end.

Definition field (k : jsstring) (ps : list (jsstring * Value)) : Value :=
  match lookup k ps with Some x => x | None => Undefined end.

(** A property the schema allows, with a value of its type. *)
Definition propertyAllowed (p : jsstring * Value) : bool :=
  let (k, v) := p in
  if jsstring_eqb k (lit "actionSteps") then isStringArray v
  else
    (jsstring_eqb k (lit "headline") || jsstring_eqb k (lit "fortune")
     || jsstring_eqb k (lit "luckyItem") || jsstring_eqb k (lit "energyLevel"))
    && isString v.

Definition isFortuneResponse (v : Value) : bool :=
  match v with
  | Obj ps =>
      isString (field (lit "headline") ps)
      && isString (field (lit "fortune") ps)
      && isStringArray (field (lit "actionSteps") ps)
      && isString (field (lit "luckyItem") ps)
      && isString (field (lit "energyLevel") ps)
      && forallb propertyAllowed ps
  | _ => false
  end.

Definition isErrorBody (v : Value) : bool :=
  match v with
  | Obj [(k, Str _)] => jsstring_eqb k (lit "error")
  | _ => false
  end.

Definition isSuccess (r : Response) : bool :=
  (200 <=? status r) && (status r <? 300).

Definition isClientError (r : Response) : bool :=
  (400 <=? status r) && (status r <? 500).

Definition isServerError (r : Response) : bool :=
  (500 <=? status r) && (status r <? 600).

(** A request the validation is to turn down: its body does not parse, or
    its [mbti] is absent or [null], or is not a string, or is a string that
    is empty once trimmed or fails the pattern once trimmed and put in
    upper case. *)
Definition mbtiUnacceptable (rt : Builtins) (request : Request) : bool :=
  match JSON_parse rt (body request) with
  | None => true
  | Some payload =>
      match getOpt payload (lit "mbti") with
      | Str s =>
          match trim s with
          | [] => true
          | t => negb (mbtiPattern_test (toUpperCase rt t))
          end
      | _ => true
      end
  end.

(** A request whose fields are of the declared [RequestPayload] type: the
    body, when it parses, is not [null], and its [mbti] and [concern] are
    each absent, [null] or a string. *)
Definition stringOrAbsent (v : Value) : bool :=
  match v with
  | Undefined | Null | Str _ => true
  | _ => false
  end.

Definition payloadTyped (payload : Value) : bool :=
  negb (nullish payload)
  && stringOrAbsent (prop payload (lit "mbti"))
  && stringOrAbsent (prop payload (lit "concern")).

Definition requestTyped (rt : Builtins) (request : Request) : bool :=
  match JSON_parse rt (body request) with
  | Some payload => payloadTyped payload
  | None => true
  end.

(** The normalization as the specification words it: a string is used as
    it is; from a sequence of blocks, the blocks without extractable text
    are skipped and the texts of the others are joined by newlines. *)
Definition textOf (block : Value) : option jsstring :=
  match block with
  | Obj ps =>
      match lookup (lit "text") ps with
      | Some (Str t) => Some t
      | _ => None
      end
  | _ => None
  end.

Definition texts (blocks : list Value) : list jsstring :=
  flat_map (fun b => match textOf b with Some t => [t] | None => [] end)
    blocks.

Definition normalize_spec (message : Value) : jsstring :=
  match message with
  | Str s => s
  | Arr blocks => join newline (texts blocks)
  | _ => []
  end.

(** One run of the handler: how it ends, and what it did on the way. *)
Definition Run : Type := Result Response * list Event.

(** The [try] block, lines 83 to 135. *)
Definition tryBlock (rt : Builtins) (create : Service) (params : Value)
  : Result Response :=
  completion <- create params ;;
  parsed <- parseCompletion rt completion ;;
  NextResponse_json parsed 200.

(** The [try] statement with its [catch] clause, lines 82 to 142. *)
Definition guarded (rt : Builtins) (create : Service) (params : Value)
  : Run :=
  match tryBlock rt create params with
  | Returned response => (Returned response, [Create params])
  | Thrown error =>
      (Returned generationFailed,
       [Create params; ConsoleError (lit "fortune api error") error])
  end.

(** [export async function POST(request)] *)
Definition POST (rt : Builtins) (env : Env) (create : Service)
    (request : Request) : Run :=
  if negb (truthy (envValue (OPENAI_API_KEY env))) then
    (Returned missingKey, [])
  else
    match request_json rt request with
    | Thrown _ => (Returned unreadableBody, [])
    | Returned payload =>
        match read_fields rt payload with
        | Thrown e => (Thrown e, [])
        | Returned (mbti, concern) =>
            if mbti_rejected mbti then (Returned invalidMbti, [])
            else guarded rt create (createParams mbti concern)
        end
    end.

(** Lines 17 to 19, [new OpenAI({ apiKey: process.env.OPENAI_API_KEY })],
    run once when the module is loaded.  The constructor of the [openai]
    package throws when the key it is given is [undefined]; with a key,
    the client it builds is the way to the service. *)
Definition new_OpenAI (apiKey : Value) (service : Service) : Result Service :=
  match apiKey with
  | Undefined => Thrown OpenAIError
  | _ => Returned service
  end.

Definition openai (env : Env) (service : Service) : Result Service :=
  new_OpenAI (envValue (OPENAI_API_KEY env)) service.

(** The endpoint in a process of environment [env]: the module is loaded,
    and when that has not thrown, [POST] serves the request with the
    client of the module. *)
Definition endpoint (rt : Builtins) (env : Env) (service : Service)
    (request : Request) : Run :=
  match openai env service with
  | Returned client => POST rt env client request
  | Thrown e => (Thrown e, [])
  end.

End Route.

(** ** The client view: the page component *)

Module Page.
Import JS.

Definition MBTI_TYPES : list jsstring :=
  map lit [
    "INTJ"; "INTP"; "ENTJ"; "ENTP"; "INFJ"; "INFP"; "ENFJ"; "ENFP";
    "ISTJ"; "ISFJ"; "ESTJ"; "ESFJ"; "ISTP"; "ISFP"; "ESTP"; "ESFP"
  ]%string.

Definition PRESET_CONCERNS : list jsstring :=
  map lit [
    "새로운 프로젝트를 시작했는데 방향성을 잡고 싶어요.";
    "친구와의 감정적 갈등을 부드럽게 풀고 싶어요.";
    "오늘 중요한 발표가 있는데 마음을 다잡고 싶어요."
  ]%string.

(** The six [useState] slots of [Home], with their initial values.
    [fortune] is [null] or the payload of the last successful response;
    [error] is [null] ([None]) or a message. *)
Record State : Type := {
  mbti : jsstring;
  concern : jsstring;
  fortune : Value;
  isLoading : bool;
  error : option jsstring;
  lastUpdated : jsstring
}.

Definition initial : State :=
  {| mbti := []; concern := []; fortune := Null; isLoading := false;
     error := None; lastUpdated := [] |}.

(** The state setters. *)
Inductive Setter : Type :=
| setMbti (v : jsstring)
| setConcern (v : jsstring)
| setFortune (v : Value)
| setIsLoading (v : bool)
| setError (v : option jsstring)
| setLastUpdated (v : jsstring).

Definition set (st : State) (a : Setter) : State :=
  match a with
  | setMbti v =>
      {| mbti := v; concern := concern st; fortune := fortune st;
         isLoading := isLoading st; error := error st;
         lastUpdated := lastUpdated st |}
  | setConcern v =>
      {| mbti := mbti st; concern := v; fortune := fortune st;
         isLoading := isLoading st; error := error st;
         lastUpdated := lastUpdated st |}
  | setFortune v =>
      {| mbti := mbti st; concern := concern st; fortune := v;
         isLoading := isLoading st; error := error st;
         lastUpdated := lastUpdated st |}
  | setIsLoading v =>
      {| mbti := mbti st; concern := concern st; fortune := fortune st;
         isLoading := v; error := error st;
         lastUpdated := lastUpdated st |}
  | setError v =>
      {| mbti := mbti st; concern := concern st; fortune := fortune st;
         isLoading := isLoading st; error := v;
         lastUpdated := lastUpdated st |}
  | setLastUpdated v =>
      {| mbti := mbti st; concern := concern st; fortune := fortune st;
         isLoading := isLoading st; error := error st;
         lastUpdated := v |}
  end.

Inductive Tone := high | mid | low.

(** The body of the [energyTone] memo, run on the current [fortune];
    [None] is its [null]. *)
Definition energyTone (fortune : Value) : Result (option Tone) :=
  if negb (truthy fortune) then Returned None
  else
    level <- get fortune (lit "energyLevel") ;;
    normalized <- callTrim level ;;
    if includes normalized (lit "높") then Returned (Some high)
    else if includes normalized (lit "낮") then Returned (Some low)
    else Returned (Some mid).

(** The key of the [map] record of the [energyClass] memo. *)
Definition classKey (t : Tone) : jsstring :=
  match t with
  | high => lit "energyHigh"
  | mid => lit "energyMid"
  | low => lit "energyLow"
  end.

(** The body of the [energyClass] memo; [styles] is the object imported
    from the style sheet module. *)
Definition energyClass (styles : Value) (energyTone : option Tone) : Value :=
  match energyTone with
  | None => Str []
  | Some t => prop styles (classKey t)
  end.

(** What [handleSubmit] catches: an instance of [Error] with its message,
    or any other thrown value. *)
Inductive Caught : Type :=
| ErrorInstance (message : jsstring)
| NotAnError.

(** The response [fetch] resolves to: its [ok] flag and what
    [response.json()] gives ([None] when it rejects). *)
Record HttpResponse : Type := { ok : bool; parsedBody : option Value }.

(** How the [fetch] call ends: resolved, or rejected (a network failure). *)
Definition Fetched := Completion Caught HttpResponse.

(** What a submission does, in order. *)
Inductive Effect : Type :=
| preventDefault
| fetch (url : jsstring) (bodyObject : Value)
| call (a : Setter).

(** [new Error(v)] for [v] not undefined: its message is [ToString v], and
    when that conversion throws, its [TypeError] is what is thrown. *)
Definition newError (rt : Builtins) (v : Value) : Caught :=
  match ToString rt v with
  | Returned m => ErrorInstance m
  | Thrown m => ErrorInstance m
  end.

(** Lines 83 to 93: the payload of a resolved response, or the throw. *)
Definition readResponse (rt : Builtins) (response : HttpResponse)
  : Completion Caught Value :=
  let payload :=
    match parsedBody response with Some v => v | None => Null end in
  if negb (ok response) || negb (truthy payload) then
    Thrown (newError rt
      (coalesce (getOpt payload (lit "error"))
         (Str (lit "점괘를 가져오는 중 문제가 발생했어요."))))
  else Returned payload.

(** The message the [catch] clause stores. *)
Definition caughtMessage (c : Caught) : jsstring :=
  match c with
  | ErrorInstance m => m
  | NotAnError => lit "알 수 없는 오류가 발생했어요."
  end.

(** The object whose [JSON.stringify] is the body of the request. *)
Definition requestObject (st : State) : Value :=
  Obj [(lit "mbti", Str (mbti st)); (lit "concern", Str (concern st))].

(** [handleSubmit], up to the [await fetch]. *)
Definition submitStart (st : State) : list Effect :=
  preventDefault ::
  if negb (truthy (Str (mbti st))) then
    [call (setError (Some (lit "MBTI 유형을 선택해 주세요.")))]
  else
    [call (setIsLoading true); call (setError None);
     fetch (lit "/api/fortune") (requestObject st)].

(** [handleSubmit], from the end of the [fetch] on; [now] is what
    [new Date().toLocaleTimeString('ko-KR', ...)] gives. *)
Definition submitEnd (rt : Builtins) (fetched : Fetched) (now : jsstring)
  : list Effect :=
  match response <- fetched ;; readResponse rt response with
  | Returned payload =>
      [call (setFortune payload); call (setLastUpdated now)]
  | Thrown fetchError => [call (setError (Some (caughtMessage fetchError)))]
  end
  ++ [call (setIsLoading false)].

(** One whole submission. *)
Definition handleSubmit (rt : Builtins) (st : State) (fetched : Fetched)
    (now : jsstring) : list Effect :=
  submitStart st
  ++ if negb (truthy (Str (mbti st))) then [] else submitEnd rt fetched now.

(** A submission that fails: the [fetch] rejects, or the response has a
    non-success status, or its body does not parse. *)
Definition failed (fetched : Fetched) : Prop :=
  match fetched with
  | Thrown _ => True
  | Returned response => ok response = false \/ parsedBody response = None
  end.

Definition perform (st : State) (e : Effect) : State :=
  match e with
  | call a => set st a
  | _ => st
  end.

Definition run (st : State) (es : list Effect) : State :=
  fold_left perform es st.

(** Line 189, [error ? <p>{error}</p> : null]: the text of the error
    paragraph, when one is rendered. *)
Definition errorParagraph (st : State) : option jsstring :=
  match error st with
  | Some m => if truthy (Str m) then Some m else None
  | None => None
  end.

(** The submit button: its [disabled] attribute and its label. *)
Definition submitDisabled (st : State) : bool := isLoading st.

Definition submitLabel (st : State) : jsstring :=
  if isLoading st then lit "점괘 생성 중..." else lit "오늘의 점괘 듣기".

(** The values the selector offers: the empty placeholder and the types. *)
Definition optionValues : list jsstring := [] :: MBTI_TYPES.

(** What the user can do to the page.  A submission is split at its
    [await], so that other events may come in between; a [settle] is the
    end of some earlier [fetch], with whatever outcome. *)
Inductive UIEvent : Type :=
| selectOption (v : jsstring)
| typeConcern (v : jsstring)
| clickPreset (v : jsstring)
| submit
| settle (fetched : Fetched) (now : jsstring).

Inductive step (rt : Builtins) : State -> UIEvent -> State -> Prop :=
| step_select st v :
    In v optionValues ->
    step rt st (selectOption v) (set st (setMbti v))
| step_type st v :
    step rt st (typeConcern v) (set st (setConcern v))
| step_preset st v :
    In v PRESET_CONCERNS -> isLoading st = false ->
    step rt st (clickPreset v) (set st (setConcern v))
| step_submit st :
    step rt st submit (run st (submitStart st))
| step_settle st fetched now :
    step rt st (settle fetched now) (run st (submitEnd rt fetched now)).

Inductive reachable (rt : Builtins) : State -> Prop :=
| reach_initial : reachable rt initial
| reach_step st e st' :
    reachable rt st -> step rt st e st' -> reachable rt st'.

End Page.

(** ** Sample built-ins

    Stand-ins for the engine's built-ins, to run the model on examples.
    They are JavaScript's on the inputs of the examples: text of Basic
    Latin, JSON made of objects, arrays, strings without escapes, [true],
    [false] and [null], and conversion to string of strings only.
    [parse] answers [None] on any other JSON. *)

Module Sample.
Import JS.

Definition isJsonSpace (c : N) : bool :=
  (c =? 32) || (c =? 9) || (c =? 10) || (c =? 13).

Fixpoint skipSpace (s : jsstring) : jsstring :=
  match s with
  | c :: r => if isJsonSpace c then skipSpace r else s
  | [] => []
  end.

(** The characters of a string up to its closing quote. *)
Fixpoint stringBody (s acc : jsstring) : option (jsstring * jsstring) :=
  match s with
  | [] => None
  | c :: r =>
      if c =? 34 then Some (rev acc, r)
      else if (c =? 92) || (c <? 32) then None
      else stringBody r (c :: acc)
  end.

Definition hasKey (k : jsstring) (ps : list (jsstring * Value)) : bool :=
  existsb (fun p => jsstring_eqb (fst p) k) ps.

Fixpoint value (fuel : nat) (s : jsstring) : option (Value * jsstring) :=
  match fuel with
  | O => None
  | S f =>
      match skipSpace s with
      | 110 :: 117 :: 108 :: 108 :: r => Some (Null, r)
      | 116 :: 114 :: 117 :: 101 :: r => Some (Bool true, r)
      | 102 :: 97 :: 108 :: 115 :: 101 :: r => Some (Bool false, r)
      | 34 :: r =>
          match stringBody r [] with
          | Some (t, r') => Some (Str t, r')
          | None => None
          end
      | 91 :: r =>
          match skipSpace r with
          | 93 :: r' => Some (Arr [], r')
          | r' => items f r' []
          end
      | 123 :: r =>
          match skipSpace r with
          | 125 :: r' => Some (Obj [], r')
          | r' => members f r' []
          end
      | _ => None
      end
  end
with items (fuel : nat) (s : jsstring) (acc : list Value)
  : option (Value * jsstring) :=
  match fuel with
  | O => None
  | S f =>
      match value f s with
      | Some (v, r) =>
          match skipSpace r with
          | 44 :: r' => items f r' (v :: acc)
          | 93 :: r' => Some (Arr (rev (v :: acc)), r')
          | _ => None
          end
      | None => None
      end
  end
with members (fuel : nat) (s : jsstring) (acc : list (jsstring * Value))
  : option (Value * jsstring) :=
  match fuel with
  | O => None
  | S f =>
      match skipSpace s with
      | 34 :: r =>
          match stringBody r [] with
          | Some (k, r1) =>
              match skipSpace r1 with
              | 58 :: r2 =>
                  match value f r2 with
                  | Some (v, r3) =>
                      if hasKey k acc then None
                      else
                        match skipSpace r3 with
                        | 44 :: r4 => members f r4 ((k, v) :: acc)
                        | 125 :: r4 => Some (Obj (rev ((k, v) :: acc)), r4)
                        | _ => None
                        end
                  | None => None
                  end
              | _ => None
              end
          | None => None
          end
      | _ => None
      end
  end.

Definition parse (s : jsstring) : option Value :=
  match value (2 * List.length s + 2) s with
  | Some (v, r) => match skipSpace r with [] => Some v | _ => None end
  | None => None
  end.

Definition builtins : Builtins :=
  {| upperUnicode := fun s => s;
     JSON_parse := parse;
     toStringOther := fun _ => Returned (lit "[object Object]") |}.

(** JSON text written with single quotes for the double ones. *)
Definition json (s : string) : jsstring :=
  map (fun c => if c =? 39 then 34 else c) (lit s).

Definition fortuneText : jsstring :=
  json "{'headline':'a','fortune':'b','actionSteps':['x','y','z'],'luckyItem':'c','energyLevel':'d'}".

Definition fortuneValue : Value :=
  Obj [(lit "headline", Str (lit "a"));
       (lit "fortune", Str (lit "b"));
       (lit "actionSteps", Arr [Str (lit "x"); Str (lit "y"); Str (lit "z")]);
       (lit "luckyItem", Str (lit "c"));
       (lit "energyLevel", Str (lit "d"))].

(** A completion whose first choice carries [content]. *)
Definition completionOf (content : Value) : Value :=
  Obj [(lit "choices",
        Arr [Obj [(lit "message", Obj [(lit "content", content)])]])].

Definition service : Route.Service :=
  fun _ => Returned (completionOf (Str fortuneText)).

(** Three blocks, the middle one without text. *)
Definition mixedBlocks : Value :=
  Arr [Obj [(lit "text", Str (lit "a"))];
       Obj [(lit "type", Str (lit "image"))];
       Obj [(lit "text", Str (lit "b"))]].

Definition textBlocks : list Value :=
  [Obj [(lit "text", Str (lit "a"))]; Obj [(lit "text", Str (lit "b"))]].

Definition env : Route.Env := {| Route.OPENAI_API_KEY := Some (lit "sk-test") |}.

Definition noEnv : Route.Env := {| Route.OPENAI_API_KEY := None |}.

Definition request (s : string) : Route.Request := {| Route.body := json s |}.

(** A page showing a result, and a response that refuses the next
    submission. *)
Definition shown : Page.State :=
  {| Page.mbti := lit "INTJ"; Page.concern := [];
     Page.fortune := fortuneValue; Page.isLoading := false;
     Page.error := None; Page.lastUpdated := lit "10:30" |}.

Definition accepted : Page.Fetched :=
  Returned {| Page.ok := true; Page.parsedBody := Some fortuneValue |}.

Definition refused : Page.Fetched :=
  Returned {| Page.ok := false;
              Page.parsedBody := Some (Route.errorBody (lit "no")) |}.

End Sample.

(** ** Properties of the endpoint *)

Import JS.

Arguments lit : simpl never.

Section Endpoint.

Import Route.

Variable rt : Builtins.

Lemma jsstring_eqb_refl (k : jsstring) : jsstring_eqb k k = true.
Proof.
  unfold jsstring_eqb. destruct (list_eq_dec N.eq_dec k k); congruence.
Qed.

(** Without a credential the handler stops at its first test. *)
Lemma POST_no_key (env : Env) (create : Service) (request : Request) :
  truthy (envValue (OPENAI_API_KEY env)) = false ->
  POST rt env create request = (Returned missingKey, []).
Proof.
  intros H. unfold POST. rewrite H. reflexivity.
Qed.

(** An error body is written as it is: for it [NextResponse.json] always
    returns, with the response [errorResponse] names. *)
Lemma NextResponse_json_error (message : jsstring) (st : N) :
  NextResponse_json (errorBody message) st
  = Returned (errorResponse message st).
Proof. reflexivity. Qed.

(** With one, everything hangs on the body and on the two field reads. *)
Lemma POST_unreadable (env : Env) (create : Service) (request : Request) :
  truthy (envValue (OPENAI_API_KEY env)) = true ->
  JSON_parse rt (body request) = None ->
  POST rt env create request = (Returned unreadableBody, []).
Proof.
  intros Hk Hp. unfold POST, request_json. rewrite Hk, Hp. reflexivity.
Qed.

Lemma POST_read (env : Env) (create : Service) (request : Request)
    (payload : Value) :
  truthy (envValue (OPENAI_API_KEY env)) = true ->
  JSON_parse rt (body request) = Some payload ->
  POST rt env create request =
    match read_fields rt payload with
    | Thrown e => (Thrown e, [])
    | Returned (mbti, concern) =>
        if mbti_rejected mbti then (Returned invalidMbti, [])
        else guarded rt create (createParams mbti concern)
    end.
Proof.
  intros Hk Hp. unfold POST, request_json. rewrite Hk, Hp. reflexivity.
Qed.

(** The [try] statement ends in a response of status 200 and nothing but
    the call, or in the generic failure with the error on the console. *)
Lemma guarded_cases (create : Service) (params : Value) :
  (exists response,
     tryBlock rt create params = Returned response
     /\ status response = 200
     /\ guarded rt create params = (Returned response, [Create params]))
  \/ (exists e,
        tryBlock rt create params = Thrown e
        /\ guarded rt create params
           = (Returned generationFailed,
              [Create params; ConsoleError (lit "fortune api error") e])).
Proof.
  unfold guarded.
  destruct (tryBlock rt create params) as [response|e] eqn:Ht;
    [left|right; eauto].
  exists response. split; [reflexivity|]. split; [|reflexivity].
  unfold tryBlock in Ht.
  destruct (create params) as [completion|x]; [|discriminate Ht].
  simpl in Ht.
  destruct (parseCompletion rt completion) as [parsed|x];
    [|discriminate Ht].
  simpl in Ht. unfold NextResponse_json in Ht.
  destruct (serialized parsed); inversion Ht. reflexivity.
Qed.

(** What a returning [try] block has gone through. *)
Lemma tryBlock_returned (create : Service) (params : Value)
    (response : Response) :
  tryBlock rt create params = Returned response ->
  exists completion parsed,
    create params = Returned completion
    /\ parseCompletion rt completion = Returned parsed
    /\ serialized parsed = Some (json response)
    /\ status response = 200.
Proof.
  unfold tryBlock. intros Ht.
  destruct (create params) as [completion|x]; [|discriminate Ht].
  simpl in Ht.
  destruct (parseCompletion rt completion) as [parsed|x] eqn:Hparse;
    [|discriminate Ht].
  simpl in Ht. unfold NextResponse_json in Ht.
  destruct (serialized parsed) as [written|] eqn:Hs; inversion Ht.
  exists completion, parsed. repeat split; assumption.
Qed.

Lemma guarded_trace (create : Service) (params p : Value) :
  In (Create p) (snd (guarded rt create params)) -> p = params.
Proof.
  destruct (guarded_cases create params)
    as [(response & _ & _ & ->)|(e & _ & ->)]; simpl.
  - intros [H|[]]. congruence.
  - intros [H|[H|[]]]; congruence.
Qed.

(** The service is called exactly when the credential is there, the body
    parses, both fields are read and the type passes the test. *)
Lemma call_made (env : Env) (create : Service) (request : Request)
    (params : Value) :
  In (Create params) (snd (POST rt env create request)) ->
  exists payload mbti concern,
    truthy (envValue (OPENAI_API_KEY env)) = true
    /\ JSON_parse rt (body request) = Some payload
    /\ read_fields rt payload = Returned (mbti, concern)
    /\ mbti_rejected mbti = false
    /\ params = createParams mbti concern.
Proof.
  destruct (truthy (envValue (OPENAI_API_KEY env))) eqn:Hk.
  2: { rewrite POST_no_key by assumption. intros []. }
  destruct (JSON_parse rt (body request)) as [payload|] eqn:Hp.
  2: { rewrite POST_unreadable by assumption. intros []. }
  rewrite (POST_read _ _ _ payload) by assumption.
  destruct (read_fields rt payload) as [[mbti concern]|e] eqn:Hr.
  2: { intros []. }
  destruct (mbti_rejected mbti) eqn:Hm.
  { intros []. }
  intros Hin. exists payload, mbti, concern.
  repeat split; trivial.
  exact (guarded_trace _ _ _ Hin).
Qed.

(** Lines 71 and 72 stand outside both [try] blocks: what they throw
    leaves the handler. *)
Lemma POST_null_payload (env : Env) (create : Service) (request : Request) :
  truthy (envValue (OPENAI_API_KEY env)) = true ->
  JSON_parse rt (body request) = Some Null ->
  POST rt env create request = (Thrown TypeError, []).
Proof.
  intros Hk Hp. rewrite (POST_read _ _ _ Null) by assumption. reflexivity.
Qed.

(** What the field reads give on a payload that is not [null]. *)
Lemma read_mbti_typed (payload : Value) :
  nullish payload = false ->
  read_mbti rt payload =
    match prop payload (lit "mbti") with
    | Undefined | Null => Returned []
    | Str s => Returned (toUpperCase rt (trim s))
    | _ => Thrown TypeError
    end.
Proof.
  intros Hn. unfold read_mbti, get. rewrite Hn. simpl.
  destruct (prop payload (lit "mbti")); reflexivity.
Qed.

Lemma read_concern_typed (payload : Value) :
  nullish payload = false ->
  read_concern payload =
    match prop payload (lit "concern") with
    | Undefined | Null => Returned []
    | Str s => Returned (trim s)
    | _ => Thrown TypeError
    end.
Proof.
  intros Hn. unfold read_concern, get. rewrite Hn. simpl.
  destruct (prop payload (lit "concern")); reflexivity.
Qed.

Lemma read_fields_typed (payload : Value) :
  payloadTyped payload = true ->
  exists mbti concern, read_fields rt payload = Returned (mbti, concern).
Proof.
  unfold payloadTyped. intros H.
  apply andb_true_iff in H. destruct H as [H Hc].
  apply andb_true_iff in H. destruct H as [Hn Hm].
  apply negb_true_iff in Hn.
  unfold read_fields.
  rewrite (read_mbti_typed _ Hn), (read_concern_typed _ Hn).
  destruct (prop payload (lit "mbti")); try discriminate Hm;
    destruct (prop payload (lit "concern")); try discriminate Hc;
    simpl; eauto.
Qed.

(** A request to turn down never gets past the test of line 75. *)
Lemma unacceptable_rejected (request : Request) (payload : Value)
    (mbti concern : jsstring) :
  mbtiUnacceptable rt request = true ->
  JSON_parse rt (body request) = Some payload ->
  read_fields rt payload = Returned (mbti, concern) ->
  mbti_rejected mbti = true.
Proof.
  unfold mbtiUnacceptable. intros Hu Hp Hr. rewrite Hp in Hu.
  unfold read_fields in Hr.
  destruct (nullish payload) eqn:Hn.
  { unfold read_mbti, get in Hr. rewrite Hn in Hr. discriminate Hr. }
  rewrite (read_mbti_typed _ Hn) in Hr.
  unfold getOpt in Hu. rewrite Hn in Hu.
  destruct (prop payload (lit "mbti")) as [| |b|n|s|l|ps];
    try discriminate Hr; simpl in Hr.
  - destruct (read_concern payload); inversion Hr. reflexivity.
  - destruct (read_concern payload); inversion Hr. reflexivity.
  - destruct (read_concern payload); inversion Hr; subst.
    destruct (trim s) as [|c t]; [reflexivity|].
    unfold mbti_rejected. rewrite Hu. apply orb_true_r.
Qed.

End Endpoint.

Section EndpointClaims.

Import Route.

Variable rt : Builtins.

(** C1, as amended.  A request to turn down (body that does not parse,
    [mbti] absent, empty once trimmed, or failing the pattern once in upper
    case) never reaches the completion service: the run has no effect at
    all.  When moreover the credential is configured and the fields are of
    the declared type, the handler returns status 400 with an
    [{ error }] body. *)
Theorem invalid_mbti_turned_down (env : Env) (create : Service)
    (request : Request) :
  mbtiUnacceptable rt request = true ->
  snd (POST rt env create request) = []
  /\ (truthy (envValue (OPENAI_API_KEY env)) = true ->
      requestTyped rt request = true ->
      exists r,
        fst (POST rt env create request) = Returned r
        /\ status r = 400
        /\ isClientError r = true
        /\ isErrorBody (json r) = true).
Proof.
  intros Hu.
  destruct (truthy (envValue (OPENAI_API_KEY env))) eqn:Hk.
  2: { rewrite POST_no_key by assumption. split; [reflexivity|].
       discriminate 1. }
  destruct (JSON_parse rt (body request)) as [payload|] eqn:Hp.
  2: { rewrite POST_unreadable by assumption. split; [reflexivity|].
       intros _ _. exists unreadableBody. repeat split. }
  rewrite (POST_read rt _ _ _ payload) by assumption.
  split.
  - destruct (read_fields rt payload) as [[mbti concern]|e] eqn:Hr;
      [|reflexivity].
    rewrite (unacceptable_rejected rt request payload mbti concern)
      by assumption.
    reflexivity.
  - intros _ Ht. unfold requestTyped in Ht. rewrite Hp in Ht.
    destruct (read_fields_typed rt payload Ht) as (mbti & concern & Hr).
    rewrite Hr.
    rewrite (unacceptable_rejected rt request payload mbti concern)
      by assumption.
    exists invalidMbti. repeat split.
Qed.

(** What a parsed completion has gone through. *)
Lemma parseCompletion_returned (completion parsed : Value) :
  parseCompletion rt completion = Returned parsed ->
  exists message,
    messageContent completion = Returned message
    /\ rawContentOf message <> []
    /\ JSON_parse rt (rawContentOf message) = Some parsed.
Proof.
  unfold parseCompletion. intros H.
  destruct (messageContent completion) as [message|e]; [|discriminate H].
  simpl in H. exists message. split; [reflexivity|].
  destruct (rawContentOf message) as [|c raw]; [discriminate H|].
  simpl in H.
  destruct (JSON_parse rt (c :: raw)) as [v|]; inversion H.
  split; [discriminate|reflexivity].
Qed.

Lemma parseCompletion_parsed (completion message parsed : Value) :
  messageContent completion = Returned message ->
  rawContentOf message <> [] ->
  JSON_parse rt (rawContentOf message) = Some parsed ->
  parseCompletion rt completion = Returned parsed.
Proof.
  intros Hm Hne Hj. unfold parseCompletion. rewrite Hm. simpl.
  destruct (rawContentOf message) as [|c raw]; [congruence|].
  simpl. now rewrite Hj.
Qed.

(** An array of strings, and so a value of the FortuneResponse shape, is
    written and read back as itself. *)
Lemma strings_serialized (items : list Value) :
  forallb isString items = true ->
  map (fun x => match serialized x with Some y => y | None => Null end)
    items = items.
Proof.
  induction items as [|x items IH]; [reflexivity|].
  simpl. intros H. apply andb_true_iff in H. destruct H as [Hx Hrest].
  rewrite (IH Hrest). destruct x; try discriminate Hx. reflexivity.
Qed.

Lemma allowed_serialized (ps : list (jsstring * Value)) :
  forallb propertyAllowed ps = true ->
  flat_map (fun p => match p with
                     | (k, x) =>
                         match serialized x with
                         | Some y => [(k, y)]
                         | None => []
                         end
                     end) ps = ps.
Proof.
  induction ps as [|[k x] ps IH]; [reflexivity|].
  intros H. change (forallb propertyAllowed ((k, x) :: ps))
    with (propertyAllowed (k, x) && forallb propertyAllowed ps) in H.
  apply andb_true_iff in H. destruct H as [Hx Hrest].
  change (flat_map ?f ((k, x) :: ps)) with (f (k, x) ++ flat_map f ps).
  rewrite (IH Hrest).
  assert (Hs : serialized x = Some x).
  { unfold propertyAllowed in Hx.
    destruct (jsstring_eqb k (lit "actionSteps")).
    - destruct x; try discriminate Hx.
      change (serialized (Arr items))
        with (Some (Arr (map (fun x => match serialized x with
                                       | Some y => y
                                       | None => Null
                                       end) items))).
      now rewrite (strings_serialized items Hx).
    - apply andb_true_iff in Hx. destruct Hx as [_ Hx].
      destruct x; try discriminate Hx. reflexivity. }
  rewrite Hs. reflexivity.
Qed.

Lemma fortune_serialized (v : Value) :
  isFortuneResponse v = true -> serialized v = Some v.
Proof.
  destruct v as [| |b|n|s|l|ps]; try discriminate.
  unfold isFortuneResponse. intros H.
  apply andb_true_iff in H. destruct H as [_ H].
  change (serialized (Obj ps))
    with (Some (Obj (flat_map (fun p => match p with
                                        | (k, x) =>
                                            match serialized x with
                                            | Some y => [(k, y)]
                                            | None => []
                                            end
                                        end) ps))).
  now rewrite (allowed_serialized ps H).
Qed.

(** C2, as amended.  On a request whose fields are of the declared type,
    whatever the service does, the handler returns a response, and it is
    one of two.  Either status 200 with, as its body, the value that
    [JSON.parse] gave for the normalized content of the completion as
    [JSON.stringify] writes it, whatever its shape: nothing checks that
    it is a FortuneResponse, and when it is one the body is that very
    value.  Or an [{ error }] body with status 400 or 500. *)
Theorem response_shapes (env : Env) (create : Service) (request : Request) :
  requestTyped rt request = true ->
  exists r,
    fst (POST rt env create request) = Returned r
    /\ ((status r = 200
         /\ exists params completion message parsed,
              In (Create params) (snd (POST rt env create request))
              /\ create params = Returned completion
              /\ messageContent completion = Returned message
              /\ JSON_parse rt (rawContentOf message) = Some parsed
              /\ serialized parsed = Some (json r)
              /\ (isFortuneResponse parsed = true -> json r = parsed))
        \/ (isErrorBody (json r) = true
            /\ (status r = 400 \/ status r = 500))).
Proof.
  intros Ht.
  destruct (truthy (envValue (OPENAI_API_KEY env))) eqn:Hk.
  2: { rewrite POST_no_key by assumption. exists missingKey.
       split; [reflexivity|]. right. split; [reflexivity|now right]. }
  destruct (JSON_parse rt (body request)) as [payload|] eqn:Hp.
  2: { rewrite POST_unreadable by assumption. exists unreadableBody.
       split; [reflexivity|]. right. split; [reflexivity|now left]. }
  rewrite (POST_read rt _ _ _ payload) by assumption.
  unfold requestTyped in Ht. rewrite Hp in Ht.
  destruct (read_fields_typed rt payload Ht) as (mbti & concern & Hr).
  rewrite Hr.
  destruct (mbti_rejected mbti).
  { exists invalidMbti. split; [reflexivity|].
    right. split; [reflexivity|now left]. }
  destruct (guarded_cases rt create (createParams mbti concern))
    as [(response & Htry & Hstatus & Hrun)|(e & _ & Hrun)]; rewrite Hrun.
  2: { exists generationFailed. split; [reflexivity|].
       right. split; [reflexivity|now right]. }
  exists response. split; [reflexivity|]. left. split; [exact Hstatus|].
  destruct (tryBlock_returned rt create _ response Htry)
    as (completion & parsed & Hc & Hparse & Hs & _).
  destruct (parseCompletion_returned completion parsed Hparse)
    as (message & Hm & _ & Hj).
  exists (createParams mbti concern), completion, message, parsed.
  split; [now left|]. split; [exact Hc|]. split; [exact Hm|].
  split; [exact Hj|]. split; [exact Hs|].
  intros Hf. rewrite (fortune_serialized parsed Hf) in Hs. congruence.
Qed.

(** What the serialization does to a number that JSON text cannot hold:
    when the model's output reads as an infinity (as [1e400] does), the
    body of the 200 response is [null]; a negative zero is written [0]. *)
Lemma infinity_written_null (env : Env) (create : Service)
    (request : Request) (params completion message : Value) :
  In (Create params) (snd (POST rt env create request)) ->
  create params = Returned completion ->
  messageContent completion = Returned message ->
  rawContentOf message <> [] ->
  JSON_parse rt (rawContentOf message)
    = Some (Number 9218868437227405312) ->
  POST rt env create request
    = (Returned {| status := 200; json := Null |}, [Create params]).
Proof.
  intros Hin Hc Hm Hne Hj.
  destruct (call_made rt _ _ _ _ Hin)
    as (payload & mbti & concern & Hk & Hp & Hr & Hv & ->).
  rewrite (POST_read rt _ _ _ payload) by assumption.
  rewrite Hr, Hv. unfold guarded, tryBlock. rewrite Hc. simpl bind.
  rewrite (parseCompletion_parsed completion message _ Hm Hne Hj).
  reflexivity.
Qed.

Example negative_zero_written_zero :
  serialized (Obj [(lit "score", Number 9223372036854775808)])
  = Some (Obj [(lit "score", Number 0)]).
Proof. reflexivity. Qed.

(** C5.  With no credential in the environment the endpoint does not get
    to answer: loading the module runs [new OpenAI] with an [undefined]
    key, which throws, so that no request reaches the handler.  The
    handler itself is written for the case: run alone in that environment
    it would answer status 500 with its [{ error }] body and call
    nothing. *)
Theorem credential_guard_unreached (service : Service) (request : Request) :
  endpoint rt {| OPENAI_API_KEY := None |} service request
    = (Thrown OpenAIError, [])
  /\ POST rt {| OPENAI_API_KEY := None |} service request
     = (Returned missingKey, [])
  /\ status missingKey = 500
  /\ isErrorBody (json missingKey) = true.
Proof.
  repeat split.
Qed.

(** C6.  When the handler has called the service, the call has resolved,
    and the normalized content is a non-empty string that [JSON.parse]
    turns into a value of the FortuneResponse shape, the handler returns
    that very value as the body, with status 200. *)
Theorem parsed_fortune_returned (env : Env) (create : Service)
    (request : Request) (params completion message parsed : Value) :
  In (Create params) (snd (POST rt env create request)) ->
  create params = Returned completion ->
  messageContent completion = Returned message ->
  rawContentOf message <> [] ->
  JSON_parse rt (rawContentOf message) = Some parsed ->
  isFortuneResponse parsed = true ->
  POST rt env create request
    = (Returned {| status := 200; json := parsed |}, [Create params])
  /\ isSuccess {| status := 200; json := parsed |} = true.
Proof.
  intros Hin Hc Hm Hne Hj Hf.
  destruct (call_made rt _ _ _ _ Hin)
    as (payload & mbti & concern & Hk & Hp & Hr & Hv & ->).
  split; [|reflexivity].
  rewrite (POST_read rt _ _ _ payload) by assumption.
  rewrite Hr, Hv. unfold guarded, tryBlock. rewrite Hc. simpl bind.
  rewrite (parseCompletion_parsed completion message parsed Hm Hne Hj).
  simpl bind. unfold NextResponse_json.
  now rewrite (fortune_serialized parsed Hf).
Qed.

(** C7.  When the handler has called the service, the call has resolved,
    and the normalized content is the empty string or does not parse as
    JSON, the handler answers status 500 with one fixed [{ error }] body:
    the same response whatever the content and whatever the failure, the
    detail of which goes to the console only. *)
Theorem bad_model_output_generic (env : Env) (create : Service)
    (request : Request) (params completion message : Value) :
  In (Create params) (snd (POST rt env create request)) ->
  create params = Returned completion ->
  messageContent completion = Returned message ->
  rawContentOf message = []
  \/ JSON_parse rt (rawContentOf message) = None ->
  fst (POST rt env create request) = Returned generationFailed
  /\ isServerError generationFailed = true
  /\ isErrorBody (json generationFailed) = true
  /\ exists e,
       snd (POST rt env create request)
       = [Create params; ConsoleError (lit "fortune api error") e].
Proof.
  intros Hin Hc Hm Hbad.
  destruct (call_made rt _ _ _ _ Hin)
    as (payload & mbti & concern & Hk & Hp & Hr & Hv & ->).
  rewrite (POST_read rt _ _ _ payload) by assumption.
  rewrite Hr, Hv. unfold guarded, tryBlock. rewrite Hc. simpl bind.
  unfold parseCompletion. rewrite Hm. simpl bind.
  destruct Hbad as [Hempty|Hnone].
  - rewrite Hempty. simpl.
    split; [|split; [|split]]; try reflexivity.
    eexists. reflexivity.
  - destruct (rawContentOf message) as [|c raw]; simpl.
    + split; [|split; [|split]]; try reflexivity.
      eexists. reflexivity.
    + rewrite Hnone. simpl.
      split; [|split; [|split]]; try reflexivity.
      eexists. reflexivity.
Qed.

(** The callback of [map] gives the text of a block that has one, and
    the empty string for any other block. *)
Lemma blockText_textOf (block : Value) :
  blockText block = match textOf block with Some t => t | None => [] end.
Proof.
  unfold blockText, textOf, hasProperty, prop.
  destruct block as [| |b|n|s|l|ps];
    rewrite ?andb_false_r; try reflexivity.
  simpl. destruct (lookup (lit "text") ps) as [[| |b|n|s|l|ps']|];
    reflexivity.
Qed.

Lemma texts_all (blocks : list Value) :
  Forall (fun b => textOf b <> None) blocks ->
  texts blocks
  = map (fun b => match textOf b with Some t => t | None => [] end) blocks.
Proof.
  induction 1 as [|b blocks Hb _ IH]; [reflexivity|].
  unfold texts in *. simpl. rewrite IH.
  destruct (textOf b); [reflexivity|congruence].
Qed.

(** C4, as amended.  A string content is used as it is.  From a sequence
    of blocks, each block gives its text when it is an object with a
    string [text], and the empty string otherwise, and what the blocks
    give is joined by newlines: a block without text still leaves its
    separator.  When every block has a text this is the join of the
    texts.  Any other content gives the empty string. *)
Theorem content_normalization :
  (forall s, rawContentOf (Str s) = s)
  /\ (forall blocks,
        rawContentOf (Arr blocks)
        = join newline
            (map (fun b => match textOf b with Some t => t | None => [] end)
               blocks))
  /\ (forall blocks,
        Forall (fun b => textOf b <> None) blocks ->
        rawContentOf (Arr blocks) = normalize_spec (Arr blocks))
  /\ (forall v, isString v = false -> isArray v = false ->
        rawContentOf v = []).
Proof.
  assert (Hmap : forall blocks,
    map blockText blocks
    = map (fun b => match textOf b with Some t => t | None => [] end) blocks).
  { intros blocks. apply map_ext. exact blockText_textOf. }
  split; [reflexivity|]. split; [|split].
  - intros blocks. simpl. now rewrite Hmap.
  - intros blocks Hall. simpl. now rewrite Hmap, texts_all.
  - intros [| |b|n|s|l|ps]; simpl; intros; try reflexivity; discriminate.
Qed.

End EndpointClaims.

(** *** The endpoint on examples *)

Section EndpointExamples.

Import Route.

(** C1 fails as stated: with no credential configured, a request with no
    [mbti] gets status 500, not a client error. *)
Lemma invalid_mbti_without_credential :
  ~ (mbtiUnacceptable Sample.builtins (Sample.request "{}") = true ->
     exists r,
       fst (POST Sample.builtins Sample.noEnv Sample.service
              (Sample.request "{}")) = Returned r
       /\ isClientError r = true
       /\ isErrorBody (json r) = true).
Proof.
  intros H.
  destruct (H eq_refl) as (r & Hr & Hc & _).
  vm_compute in Hr. inversion Hr; subst r.
  vm_compute in Hc. discriminate Hc.
Qed.

Lemma invalid_mbti_turned_down_witness :
  snd (POST Sample.builtins Sample.env Sample.service
         (Sample.request "{'mbti':'INTX'}")) = []
  /\ exists r,
       fst (POST Sample.builtins Sample.env Sample.service
              (Sample.request "{'mbti':'INTX'}")) = Returned r
       /\ status r = 400
       /\ isClientError r = true
       /\ isErrorBody (json r) = true.
Proof.
  assert (Hu : mbtiUnacceptable Sample.builtins
                 (Sample.request "{'mbti':'INTX'}") = true)
    by (vm_compute; reflexivity).
  destruct (invalid_mbti_turned_down Sample.builtins Sample.env
              Sample.service (Sample.request "{'mbti':'INTX'}") Hu)
    as [Hnone Hresp].
  split; [exact Hnone|].
  apply Hresp; vm_compute; reflexivity.
Defined.

(** C2 fails as stated: when the model answers [{}], the handler returns
    [{}] with status 200, which is neither a FortuneResponse nor an error
    body. *)
Lemma empty_object_returned :
  ~ (exists r,
       fst (POST Sample.builtins Sample.env
              (fun _ => Returned (Sample.completionOf (Str (Sample.json "{}"))))
              (Sample.request "{'mbti':'intj'}")) = Returned r
       /\ ((isSuccess r = true /\ isFortuneResponse (json r) = true)
           \/ (isSuccess r = false /\ isErrorBody (json r) = true))).
Proof.
  intros (r & Hr & Hshape).
  vm_compute in Hr. inversion Hr; subst r.
  destruct Hshape as [[_ H]|[H _]]; vm_compute in H; discriminate H.
Qed.

Lemma response_shapes_witness :
  exists r,
    fst (POST Sample.builtins Sample.env Sample.service
           (Sample.request "{'mbti':'intj'}")) = Returned r
    /\ ((status r = 200
         /\ exists params completion message parsed,
              In (Create params)
                (snd (POST Sample.builtins Sample.env Sample.service
                        (Sample.request "{'mbti':'intj'}")))
              /\ Sample.service params = Returned completion
              /\ messageContent completion = Returned message
              /\ JSON_parse Sample.builtins (rawContentOf message)
                 = Some parsed
              /\ serialized parsed = Some (json r)
              /\ (isFortuneResponse parsed = true -> json r = parsed))
        \/ (isErrorBody (json r) = true
            /\ (status r = 400 \/ status r = 500))).
Proof.
  apply (response_shapes Sample.builtins Sample.env Sample.service
           (Sample.request "{'mbti':'intj'}")).
  vm_compute; reflexivity.
Defined.

(** C3: the handler throws on a body that parses to [null], and on a
    field that is not a string. *)
Theorem null_body_throws :
  POST Sample.builtins Sample.env Sample.service (Sample.request "null")
    = (Thrown TypeError, [])
  /\ POST Sample.builtins Sample.env Sample.service
       (Sample.request "{'mbti':'INTJ','concern':true}")
     = (Thrown TypeError, [])
  /\ POST Sample.builtins Sample.env Sample.service
       (Sample.request "{'mbti':['INTJ']}")
     = (Thrown TypeError, []).
Proof.
  repeat split; vm_compute; reflexivity.
Qed.

(** C4 fails as stated: a block without text is not skipped, it leaves an
    empty line. *)
Lemma textless_block_not_skipped :
  rawContentOf Sample.mixedBlocks <> normalize_spec Sample.mixedBlocks.
Proof.
  vm_compute. discriminate.
Qed.

Lemma content_normalization_witness :
  rawContentOf (Arr Sample.textBlocks)
  = normalize_spec (Arr Sample.textBlocks).
Proof.
  apply (proj1 (proj2 (proj2 content_normalization))).
  repeat constructor; vm_compute; discriminate.
Defined.

Lemma parsed_fortune_returned_witness :
  POST Sample.builtins Sample.env Sample.service
    (Sample.request "{'mbti':'intj','concern':''}")
  = (Returned {| status := 200; json := Sample.fortuneValue |},
     [Create (createParams (lit "INTJ") [])])
  /\ isSuccess {| status := 200; json := Sample.fortuneValue |} = true.
Proof.
  apply (parsed_fortune_returned Sample.builtins Sample.env Sample.service
           (Sample.request "{'mbti':'intj','concern':''}")
           (createParams (lit "INTJ") [])
           (Sample.completionOf (Str Sample.fortuneText))
           (Str Sample.fortuneText)).
  - vm_compute. left. reflexivity.
  - reflexivity.
  - vm_compute; reflexivity.
  - vm_compute. discriminate.
  - vm_compute; reflexivity.
  - vm_compute; reflexivity.
Defined.

Lemma bad_model_output_generic_witness :
  fst (POST Sample.builtins Sample.env
         (fun _ => Returned (Sample.completionOf (Str (lit "not json"))))
         (Sample.request "{'mbti':'intj'}"))
  = Returned generationFailed
  /\ isServerError generationFailed = true
  /\ isErrorBody (json generationFailed) = true
  /\ exists e,
       snd (POST Sample.builtins Sample.env
              (fun _ => Returned (Sample.completionOf (Str (lit "not json"))))
              (Sample.request "{'mbti':'intj'}"))
       = [Create (createParams (lit "INTJ") []);
          ConsoleError (lit "fortune api error") e].
Proof.
  apply (bad_model_output_generic Sample.builtins Sample.env
           (fun _ => Returned (Sample.completionOf (Str (lit "not json"))))
           (Sample.request "{'mbti':'intj'}")
           (createParams (lit "INTJ") [])
           (Sample.completionOf (Str (lit "not json")))
           (Str (lit "not json"))).
  - vm_compute. left. reflexivity.
  - reflexivity.
  - vm_compute; reflexivity.
  - right. vm_compute; reflexivity.
Defined.

End EndpointExamples.

(** ** Properties of the client view *)

Section Client.

Import Page.

Variable rt : Builtins.

(** *** The energy tone *)

Lemma startsWith_nil (s : jsstring) : startsWith s [] = true.
Proof. destruct s; reflexivity. Qed.

Lemma includes_unit (c : N) (s : jsstring) :
  includes s [c] = existsb (N.eqb c) s.
Proof.
  induction s as [|b s IH]; [reflexivity|].
  simpl. rewrite IH, startsWith_nil, andb_true_r. reflexivity.
Qed.

Lemma existsb_rev (f : N -> bool) (s : jsstring) :
  existsb f (rev s) = existsb f s.
Proof.
  induction s as [|b s IH]; [reflexivity|].
  simpl. rewrite existsb_app, IH. simpl.
  rewrite orb_false_r. apply orb_comm.
Qed.

Lemma existsb_trimStart (c : N) (s : jsstring) :
  isWhiteSpace c = false ->
  existsb (N.eqb c) (trimStart s) = existsb (N.eqb c) s.
Proof.
  intros Hc. induction s as [|b s IH]; [reflexivity|].
  simpl. destruct (isWhiteSpace b) eqn:Hb; [|reflexivity].
  rewrite IH. destruct (N.eqb_spec c b) as [->|_]; [congruence|reflexivity].
Qed.

(** Trimming neither adds nor removes a character that is not white
    space. *)
Lemma includes_trim (c : N) (s : jsstring) :
  isWhiteSpace c = false ->
  includes (trim s) [c] = includes s [c].
Proof.
  intros Hc. rewrite !includes_unit. unfold trim, trimEnd.
  rewrite existsb_rev, (existsb_trimStart c _ Hc), existsb_rev.
  apply existsb_trimStart, Hc.
Qed.

Lemma high_marker : lit "높" = [45458].
Proof. reflexivity. Qed.

Lemma low_marker : lit "낮" = [45230].
Proof. reflexivity. Qed.

(** C8.  With no result there is no tone.  With a result whose
    [energyLevel] is the string [level], the tone is high when [level]
    contains the high marker, else low when it contains the low marker,
    else mid. *)
Theorem energy_tone_classification :
  energyTone Null = Returned None
  /\ forall (fortune : Value) (level : jsstring),
       prop fortune (lit "energyLevel") = Str level ->
       energyTone fortune
       = Returned (Some (if includes level (lit "높") then high
                         else if includes level (lit "낮") then low
                         else mid)).
Proof.
  split; [reflexivity|].
  intros fortune level Hl.
  destruct fortune as [| |b|n|s|l|ps]; try discriminate Hl.
  unfold energyTone, get.
  change (truthy (Obj ps)) with true. change (nullish (Obj ps)) with false.
  cbv beta iota delta [negb bind]. rewrite Hl.
  cbv beta iota delta [callTrim].
  rewrite high_marker, low_marker.
  rewrite !includes_trim by reflexivity.
  destruct (includes level [45458]); [reflexivity|].
  destruct (includes level [45230]); reflexivity.
Qed.

(** *** Submissions *)

Lemma run_app (st : State) (es1 es2 : list Effect) :
  run st (es1 ++ es2) = run (run st es1) es2.
Proof. apply fold_left_app. Qed.

(** What the resumed half of a submission does to the state. *)
Lemma submitEnd_run (st : State) (fetched : Fetched) (now : jsstring) :
  run st (submitEnd rt fetched now)
  = match bind fetched (readResponse rt) with
    | Returned payload =>
        {| mbti := mbti st; concern := concern st; fortune := payload;
           isLoading := false; error := error st; lastUpdated := now |}
    | Thrown c =>
        {| mbti := mbti st; concern := concern st; fortune := fortune st;
           isLoading := false; error := Some (caughtMessage c);
           lastUpdated := lastUpdated st |}
    end.
Proof.
  unfold submitEnd.
  destruct (bind fetched (readResponse rt)); reflexivity.
Qed.

(** A failed submission makes [readResponse] throw. *)
Lemma failed_throws (fetched : Fetched) :
  failed fetched -> exists c, bind fetched (readResponse rt) = Thrown c.
Proof.
  destruct fetched as [[ok body]|c]; simpl; [|eauto].
  unfold readResponse. simpl.
  intros [->| ->]; simpl; [eauto|].
  rewrite orb_true_r. eauto.
Qed.

(** A submission that stores a payload had a successful response. *)
Lemma stored_succeeded (fetched : Fetched) (payload : Value) :
  bind fetched (readResponse rt) = Returned payload ->
  exists response,
    fetched = Returned response
    /\ ok response = true
    /\ parsedBody response = Some payload
    /\ truthy payload = true.
Proof.
  destruct fetched as [[ok body]|c]; simpl; [|discriminate].
  unfold readResponse. simpl.
  destruct ok; simpl; [|discriminate].
  destruct body as [v|]; simpl; [|discriminate].
  destruct (truthy v) eqn:Hv; simpl; [|discriminate].
  intros H. inversion H; subst. eexists. repeat split. exact Hv.
Qed.

(** C9.  A submission that fails leaves the stored result, the time of
    the last update, the selected type and the concern as they were, sets
    the error, and leaves a page that was not loading not loading; and a
    submission that changes the stored result had a successful response,
    whose payload is the new result. *)
Theorem failed_submission_keeps_result (st : State) (fetched : Fetched)
    (now : jsstring) :
  (failed fetched ->
   fortune (run st (handleSubmit rt st fetched now)) = fortune st
   /\ lastUpdated (run st (handleSubmit rt st fetched now)) = lastUpdated st
   /\ mbti (run st (handleSubmit rt st fetched now)) = mbti st
   /\ concern (run st (handleSubmit rt st fetched now)) = concern st
   /\ (isLoading st = false ->
       isLoading (run st (handleSubmit rt st fetched now)) = false)
   /\ exists m, error (run st (handleSubmit rt st fetched now)) = Some m)
  /\ (fortune (run st (handleSubmit rt st fetched now)) <> fortune st ->
      exists response,
        fetched = Returned response
        /\ ok response = true
        /\ parsedBody response
           = Some (fortune (run st (handleSubmit rt st fetched now)))).
Proof.
  unfold handleSubmit, submitStart.
  destruct (negb (truthy (Str (mbti st)))) eqn:Hsel.
  { simpl. split; [intros _; repeat split; eauto|congruence]. }
  change (preventDefault :: ?l) with ([preventDefault] ++ l).
  rewrite !run_app, submitEnd_run. simpl run.
  destruct (bind fetched (readResponse rt)) as [payload|c] eqn:Hb; simpl.
  - split.
    + intros Hf. destruct (failed_throws fetched Hf) as [c Hc]. congruence.
    + intros _. destruct (stored_succeeded fetched payload Hb)
        as (response & -> & Hok & Hbody & _).
      exists response. auto.
  - split; [intros _; repeat split; eauto|congruence].
Qed.

End Client.

Section Selector.

Import Page.

Variable rt : Builtins.

Lemma submitStart_mbti (st : State) :
  mbti (run st (submitStart st)) = mbti st.
Proof.
  unfold submitStart. destruct (negb (truthy (Str (mbti st)))); reflexivity.
Qed.

Lemma submitEnd_mbti (st : State) (fetched : Fetched) (now : jsstring) :
  mbti (run st (submitEnd rt fetched now)) = mbti st.
Proof.
  rewrite submitEnd_run.
  destruct (bind fetched (readResponse rt)); reflexivity.
Qed.

(** The selected type is always a value the selector offers. *)
Lemma selected_offered (st : State) :
  reachable rt st -> In (mbti st) optionValues.
Proof.
  induction 1 as [|st e st' _ IH Hstep]; [now left|].
  destruct Hstep as [st v Hv|st v|st v Hv Hl|st|st fetched now].
  - exact Hv.
  - exact IH.
  - exact IH.
  - now rewrite submitStart_mbti.
  - now rewrite submitEnd_mbti.
Qed.

(** Each of the sixteen types is its own trimmed upper case and passes
    the test of the endpoint. *)
Lemma types_pass (m : jsstring) :
  In m MBTI_TYPES ->
  toUpperCase rt (trim m) = m /\ Route.mbti_rejected m = false.
Proof.
  assert (Hall :
    forallb (fun m => jsstring_eqb (toUpperCase rt (trim m)) m
                      && negb (Route.mbti_rejected m)) MBTI_TYPES = true)
    by (vm_compute; reflexivity).
  intros Hin. rewrite forallb_forall in Hall.
  specialize (Hall m Hin). apply andb_true_iff in Hall.
  destruct Hall as [Heq Hok]. split.
  - unfold jsstring_eqb in Heq.
    destruct (list_eq_dec N.eq_dec (toUpperCase rt (trim m)) m);
      [assumption|discriminate].
  - now apply negb_true_iff.
Qed.

(** The request is sent only with a type selected, and carries it. *)
Lemma fetch_sent (st : State) (url : jsstring) (obj : Value) :
  In (fetch url obj) (submitStart st) ->
  mbti st <> [] /\ obj = requestObject st.
Proof.
  unfold submitStart. destruct (mbti st) as [|c m]; simpl.
  - intros [H|[H|[]]]; discriminate H.
  - intros [H|[H|[H|[H|[]]]]]; try discriminate H.
    inversion H. split; [discriminate|reflexivity].
Qed.

Lemma read_requestObject (st : State) :
  Route.read_fields rt (requestObject st)
  = Returned (toUpperCase rt (trim (mbti st)), trim (concern st)).
Proof. reflexivity. Qed.

(** C10.  In every state the page can reach, the selected type is the
    empty string or one of the sixteen types; and every request the page
    sends carries one of the sixteen, which the endpoint reads back
    unchanged and does not reject. *)
Theorem selected_type_passes_validation (st : State) :
  reachable rt st ->
  In (mbti st) ([] :: MBTI_TYPES)
  /\ forall (url : jsstring) (obj : Value),
       In (fetch url obj) (submitStart st) ->
       In (mbti st) MBTI_TYPES
       /\ obj = requestObject st
       /\ Route.read_fields rt obj = Returned (mbti st, trim (concern st))
       /\ Route.mbti_rejected (mbti st) = false.
Proof.
  intros Hreach. pose proof (selected_offered st Hreach) as Hoff.
  split; [exact Hoff|].
  intros url obj Hsent.
  destruct (fetch_sent st url obj Hsent) as [Hsel ->].
  destruct Hoff as [Hempty|Htype]; [congruence|].
  destruct (types_pass (mbti st) Htype) as [Hup Hok].
  rewrite read_requestObject, Hup. auto.
Qed.

End Selector.

(** *** The client view on examples *)

Section ClientExamples.

Import Page.

Lemma energy_tone_classification_witness :
  energyTone (Obj [(lit "energyLevel", Str (lit "에너지 높음"))])
  = Returned (Some high).
Proof.
  apply (proj2 energy_tone_classification
           (Obj [(lit "energyLevel", Str (lit "에너지 높음"))])
           (lit "에너지 높음")).
  reflexivity.
Defined.

Lemma failed_submission_keeps_result_witness :
  fortune (run Sample.shown (handleSubmit Sample.builtins Sample.shown Sample.refused (lit "10:31")))
  = Sample.fortuneValue
  /\ lastUpdated
       (run Sample.shown (handleSubmit Sample.builtins Sample.shown Sample.refused (lit "10:31")))
     = lit "10:30".
Proof.
  destruct (proj1 (failed_submission_keeps_result Sample.builtins Sample.shown
                     Sample.refused (lit "10:31")))
    as (Hfortune & Hlast & _).
  - simpl. left. reflexivity.
  - split; [exact Hfortune|exact Hlast].
Defined.

Lemma selected_type_passes_validation_witness :
  In (lit "INTJ") ([] :: MBTI_TYPES)
  /\ forall (url : jsstring) (obj : Value),
       In (fetch url obj) (submitStart (set initial (setMbti (lit "INTJ")))) ->
       In (lit "INTJ") MBTI_TYPES
       /\ obj = requestObject (set initial (setMbti (lit "INTJ")))
       /\ Route.read_fields Sample.builtins obj
          = Returned (lit "INTJ", trim [])
       /\ Route.mbti_rejected (lit "INTJ") = false.
Proof.
  apply (selected_type_passes_validation Sample.builtins
           (set initial (setMbti (lit "INTJ")))).
  apply (reach_step _ initial (selectOption (lit "INTJ"))).
  - apply reach_initial.
  - apply step_select. vm_compute. right. left. reflexivity.
Defined.

(** The examples of the specification. *)
Example tone_high :
  energyTone (Obj [(lit "energyLevel", Str (lit "에너지 높음"))])
  = Returned (Some high).
Proof. reflexivity. Qed.

Example tone_low :
  energyTone (Obj [(lit "energyLevel", Str (lit "에너지 낮음"))])
  = Returned (Some low).
Proof. reflexivity. Qed.

Example tone_mid :
  energyTone (Obj [(lit "energyLevel", Str (lit "에너지 보통"))])
  = Returned (Some mid).
Proof. reflexivity. Qed.

Example lower_case_type_accepted :
  Route.read_fields Sample.builtins
    (Obj [(lit "mbti", Str (lit "intj")); (lit "concern", Str [])])
  = Returned (lit "INTJ", []).
Proof. reflexivity. Qed.

End ClientExamples.

(** ** More on the endpoint *)

Section EndpointRuns.

Import Route.

Variable rt : Builtins.

Lemma jsstring_eqb_eq (a b : jsstring) : jsstring_eqb a b = true -> a = b.
Proof.
  unfold jsstring_eqb. destruct (list_eq_dec N.eq_dec a b);
    [trivial|discriminate].
Qed.

Lemma oneOf_cases (a b c : N) : oneOf a b c = true -> c = a \/ c = b.
Proof.
  unfold oneOf. intros H. apply orb_true_iff in H.
  destruct H as [H|H]; apply N.eqb_eq in H; auto.
Qed.

(** The pattern lets nothing through but the types of the list. *)
Lemma pattern_only_listed (m : jsstring) :
  mbtiPattern_test m = true -> In m Page.MBTI_TYPES.
Proof.
  destruct m as [|c1 [|c2 [|c3 [|c4 [|c5 m]]]]]; try discriminate.
  simpl. intros H.
  apply andb_true_iff in H. destruct H as [H H4].
  apply andb_true_iff in H. destruct H as [H H3].
  apply andb_true_iff in H. destruct H as [H1 H2].
  assert (Hin : existsb (jsstring_eqb [c1; c2; c3; c4]) Page.MBTI_TYPES
                = true).
  { destruct (oneOf_cases _ _ _ H1) as [-> | ->];
      destruct (oneOf_cases _ _ _ H2) as [-> | ->];
      destruct (oneOf_cases _ _ _ H3) as [-> | ->];
      destruct (oneOf_cases _ _ _ H4) as [-> | ->];
      vm_compute; reflexivity. }
  apply existsb_exists in Hin. destruct Hin as (x & Hx & Heq).
  apply jsstring_eqb_eq in Heq. now subst x.
Qed.

(** X1.  The pattern of the endpoint accepts exactly the sixteen types the
    selector of the page lists. *)
Theorem pattern_accepts_listed_types (m : jsstring) :
  mbtiPattern_test m = true <-> In m Page.MBTI_TYPES.
Proof.
  split; [apply pattern_only_listed|].
  assert (Hall : forallb mbtiPattern_test Page.MBTI_TYPES = true)
    by (vm_compute; reflexivity).
  rewrite forallb_forall in Hall. apply Hall.
Qed.

Lemma accepted_listed (m : jsstring) :
  mbti_rejected m = false -> In m Page.MBTI_TYPES.
Proof.
  unfold mbti_rejected. intros H. apply orb_false_iff in H.
  destruct H as [_ H]. apply negb_false_iff in H.
  now apply pattern_only_listed.
Qed.

(** X2.  Whatever the request, the type the handler puts in the
    parameters of a service call is one of the sixteen upper-case types. *)
Theorem service_called_with_listed_type (env : Env) (create : Service)
    (request : Request) (params : Value) :
  In (Create params) (snd (POST rt env create request)) ->
  exists mbti concern,
    params = createParams mbti concern /\ In mbti Page.MBTI_TYPES.
Proof.
  intros Hin.
  destruct (call_made rt _ _ _ _ Hin)
    as (payload & mbti & concern & _ & _ & _ & Hv & ->).
  exists mbti, concern. split; [reflexivity|]. now apply accepted_listed.
Qed.

(** The field reads throw nothing but a [TypeError], and throw exactly on
    a payload that is not of the declared type. *)
Lemma read_fields_untyped (payload : Value) :
  payloadTyped payload = false ->
  read_fields rt payload = Thrown TypeError.
Proof.
  unfold payloadTyped, read_fields. intros H.
  destruct (nullish payload) eqn:Hn.
  { unfold read_mbti, get. rewrite Hn. reflexivity. }
  rewrite (read_mbti_typed rt _ Hn), (read_concern_typed _ Hn).
  simpl in H.
  destruct (prop payload (lit "mbti")); simpl in H |- *; try reflexivity;
    destruct (prop payload (lit "concern")); simpl in H |- *;
    try reflexivity; discriminate H.
Qed.

Lemma read_fields_returns_typed (payload : Value) (mbti concern : jsstring) :
  read_fields rt payload = Returned (mbti, concern) ->
  payloadTyped payload = true.
Proof.
  intros Hr. destruct (payloadTyped payload) eqn:Ht; [reflexivity|].
  rewrite (read_fields_untyped _ Ht) in Hr. discriminate Hr.
Qed.

(** The converse of [unacceptable_rejected]. *)
Lemma rejected_unacceptable (request : Request) (payload : Value)
    (mbti concern : jsstring) :
  JSON_parse rt (body request) = Some payload ->
  read_fields rt payload = Returned (mbti, concern) ->
  mbti_rejected mbti = true ->
  mbtiUnacceptable rt request = true.
Proof.
  unfold mbtiUnacceptable. intros Hp Hr Hm. rewrite Hp.
  unfold read_fields in Hr.
  destruct (nullish payload) eqn:Hn.
  { unfold read_mbti, get in Hr. rewrite Hn in Hr. discriminate Hr. }
  rewrite (read_mbti_typed rt _ Hn) in Hr.
  unfold getOpt. rewrite Hn.
  destruct (prop payload (lit "mbti")) as [| |b|n|s|l|ps]; try reflexivity.
  simpl in Hr.
  destruct (read_concern payload); inversion Hr; subst.
  destruct (trim s) as [|c t] eqn:Ht; [reflexivity|].
  unfold mbti_rejected in Hm.
  destruct (toUpperCase rt (c :: t)) as [|u us] eqn:Hu;
    [reflexivity|exact Hm].
Qed.

(** The five responses with their runs, when the credential is there. *)
Lemma missingKey_not_others :
  missingKey <> unreadableBody /\ missingKey <> invalidMbti
  /\ missingKey <> generationFailed /\ unreadableBody <> invalidMbti
  /\ unreadableBody <> generationFailed /\ invalidMbti <> generationFailed.
Proof.
  repeat split; intros H; vm_compute in H; discriminate H.
Qed.

(** Every run of the handler, sorted by what it did. *)
Lemma POST_runs (env : Env) (create : Service) (request : Request) :
  POST rt env create request = (Returned missingKey, [])
  \/ POST rt env create request = (Returned unreadableBody, [])
  \/ POST rt env create request = (Returned invalidMbti, [])
  \/ POST rt env create request = (Thrown TypeError, [])
  \/ (exists params written,
        POST rt env create request
        = (Returned {| status := 200; json := written |}, [Create params]))
  \/ (exists params e,
        POST rt env create request
        = (Returned generationFailed,
           [Create params; ConsoleError (lit "fortune api error") e])).
Proof.
  destruct (truthy (envValue (OPENAI_API_KEY env))) eqn:Hk.
  2: { left. now apply POST_no_key. }
  destruct (JSON_parse rt (body request)) as [payload|] eqn:Hp.
  2: { right; left. now apply POST_unreadable. }
  rewrite (POST_read rt _ _ _ payload) by assumption.
  destruct (payloadTyped payload) eqn:Ht.
  2: { rewrite (read_fields_untyped _ Ht). do 3 right. left. reflexivity. }
  destruct (read_fields_typed rt payload Ht) as (mbti & concern & ->).
  destruct (mbti_rejected mbti); [right; right; left; reflexivity|].
  destruct (guarded_cases rt create (createParams mbti concern))
    as [([st written] & _ & Hst & ->)|(e & _ & ->)].
  - do 4 right. left. simpl in Hst. subst st. eauto.
  - do 5 right. eauto.
Qed.

(** X3.  One run calls the service at most once, and first of all; it
    writes to the console exactly when it answers with the generic
    failure, right after the call; and a run that calls nothing ends in
    one of the three early responses or in a [TypeError]. *)
Theorem run_shapes (env : Env) (create : Service) (request : Request) :
  (snd (POST rt env create request) = []
   /\ (fst (POST rt env create request) = Thrown TypeError
       \/ fst (POST rt env create request) = Returned missingKey
       \/ fst (POST rt env create request) = Returned unreadableBody
       \/ fst (POST rt env create request) = Returned invalidMbti))
  \/ (exists params parsed,
        POST rt env create request
        = (Returned {| status := 200; json := parsed |}, [Create params]))
  \/ (exists params e,
        POST rt env create request
        = (Returned generationFailed,
           [Create params; ConsoleError (lit "fortune api error") e])).
Proof.
  destruct (POST_runs env create request)
    as [H|[H|[H|[H|[H|H]]]]].
  - left. rewrite H. split; [reflexivity|]. right; left. reflexivity.
  - left. rewrite H. split; [reflexivity|]. do 2 right; left. reflexivity.
  - left. rewrite H. split; [reflexivity|]. do 3 right. reflexivity.
  - left. rewrite H. split; [reflexivity|]. left. reflexivity.
  - right; left. exact H.
  - right; right. exact H.
Qed.

(** X4.  The handler ends in an exception exactly when the credential is
    configured and the body parses to [null] or to a value whose [mbti]
    or [concern] is neither absent, nor [null], nor a string; the exception
    is a [TypeError] and nothing has been done before it. *)
Theorem throws_iff_ill_typed (env : Env) (create : Service)
    (request : Request) :
  (forall e, fst (POST rt env create request) = Thrown e ->
     POST rt env create request = (Thrown TypeError, []))
  /\ (POST rt env create request = (Thrown TypeError, [])
      <-> truthy (envValue (OPENAI_API_KEY env)) = true
          /\ exists payload,
               JSON_parse rt (body request) = Some payload
               /\ payloadTyped payload = false).
Proof.
  split.
  - intros e He.
    destruct (POST_runs env create request)
      as [H|[H|[H|[H|[(p & v & H)|(p & x & H)]]]]];
      rewrite H in He |- *; try discriminate He. reflexivity.
  - split.
    + intros H.
      destruct (truthy (envValue (OPENAI_API_KEY env))) eqn:Hk.
      2: { rewrite POST_no_key in H by assumption. discriminate H. }
      split; [reflexivity|].
      destruct (JSON_parse rt (body request)) as [payload|] eqn:Hp.
      2: { rewrite POST_unreadable in H by assumption. discriminate H. }
      exists payload. split; [reflexivity|].
      destruct (payloadTyped payload) eqn:Ht; [|reflexivity].
      rewrite (POST_read rt _ _ _ payload) in H by assumption.
      destruct (read_fields_typed rt payload Ht) as (mbti & concern & Hr).
      rewrite Hr in H.
      destruct (mbti_rejected mbti); [discriminate H|].
      destruct (guarded_cases rt create (createParams mbti concern))
        as [(response & _ & _ & Hrun)|(e & _ & Hrun)];
        rewrite Hrun in H; discriminate H.
    + intros (Hk & payload & Hp & Ht).
      rewrite (POST_read rt _ _ _ payload) by assumption.
      now rewrite (read_fields_untyped _ Ht).
Qed.

End EndpointRuns.

Section Trimming.

Lemma trimStart_blank_prefix (ws t : jsstring) :
  forallb isWhiteSpace ws = true -> trimStart (ws ++ t) = trimStart t.
Proof.
  induction ws as [|c ws IH]; [reflexivity|].
  simpl. intros H. apply andb_true_iff in H. destruct H as [Hc Hws].
  rewrite Hc. now apply IH.
Qed.

Lemma trimStart_head (c : N) (s : jsstring) :
  isWhiteSpace c = false -> trimStart (c :: s) = c :: s.
Proof. intros H. simpl. now rewrite H. Qed.

Lemma solid_rev (s : jsstring) : solid (rev s) = solid s.
Proof.
  unfold solid. induction s as [|c s IH]; [reflexivity|].
  simpl. rewrite forallb_app, IH. simpl.
  rewrite andb_true_r. apply andb_comm.
Qed.

Lemma blank_rev (s : jsstring) :
  forallb isWhiteSpace (rev s) = forallb isWhiteSpace s.
Proof.
  induction s as [|c s IH]; [reflexivity|].
  simpl. rewrite forallb_app, IH. simpl.
  rewrite andb_true_r. apply andb_comm.
Qed.

Lemma trimStart_solid (s : jsstring) : solid s = true -> trimStart s = s.
Proof.
  destruct s as [|c s]; [reflexivity|].
  unfold solid. simpl. intros H. apply andb_true_iff in H.
  destruct H as [Hc _]. apply negb_true_iff in Hc.
  now apply trimStart_head.
Qed.

(** Trimming strips a padding of white space, whole, and nothing else. *)
Lemma trim_padded (ws1 s ws2 : jsstring) :
  forallb isWhiteSpace ws1 = true ->
  forallb isWhiteSpace ws2 = true ->
  solid s = true ->
  trim (ws1 ++ s ++ ws2) = s.
Proof.
  intros H1 H2 Hs. unfold trim, trimEnd.
  rewrite (trimStart_blank_prefix ws1 _ H1).
  destruct s as [|c s].
  - simpl. rewrite <- (app_nil_r ws2).
    rewrite (trimStart_blank_prefix ws2 [] H2). reflexivity.
  - assert (Hc : isWhiteSpace c = false).
    { unfold solid in Hs. simpl in Hs. apply andb_true_iff in Hs.
      destruct Hs as [Hc _]. now apply negb_true_iff in Hc. }
    change ((c :: s) ++ ws2) with (c :: (s ++ ws2)).
    rewrite (trimStart_head c _ Hc).
    change (c :: (s ++ ws2)) with ((c :: s) ++ ws2).
    rewrite rev_app_distr.
    rewrite trimStart_blank_prefix by now rewrite blank_rev.
    rewrite trimStart_solid by now rewrite solid_rev.
    apply rev_involutive.
Qed.

Lemma trim_blank (s : jsstring) :
  forallb isWhiteSpace s = true -> trim s = [].
Proof.
  intros H. rewrite <- (app_nil_r s).
  exact (trim_padded s [] [] H eq_refl eq_refl).
Qed.

Lemma asciiUpper_range (c : N) :
  65 <= asciiUpper c <= 90 -> 65 <= c <= 122.
Proof.
  unfold asciiUpper.
  destruct (N.leb_spec 97 c); destruct (N.leb_spec c 122); simpl; lia.
Qed.

Lemma letter_solid (c : N) :
  65 <= c <= 122 -> isAscii c = true /\ isWhiteSpace c = false.
Proof.
  intros H. split.
  - apply N.ltb_lt. lia.
  - unfold isWhiteSpace.
    replace (c <=? 13) with false by (symmetry; apply N.leb_gt; lia).
    replace (c =? 32) with false by (symmetry; apply N.eqb_neq; lia).
    replace (c =? 160) with false by (symmetry; apply N.eqb_neq; lia).
    replace (c =? 5760) with false by (symmetry; apply N.eqb_neq; lia).
    replace (8192 <=? c) with false by (symmetry; apply N.leb_gt; lia).
    replace (c =? 8232) with false by (symmetry; apply N.eqb_neq; lia).
    replace (c =? 8233) with false by (symmetry; apply N.eqb_neq; lia).
    replace (c =? 8239) with false by (symmetry; apply N.eqb_neq; lia).
    replace (c =? 8287) with false by (symmetry; apply N.eqb_neq; lia).
    replace (c =? 12288) with false by (symmetry; apply N.eqb_neq; lia).
    replace (c =? 65279) with false by (symmetry; apply N.eqb_neq; lia).
    now rewrite andb_false_r.
Qed.

(** A spelling of a listed type, in either case, is four letters. *)
Lemma spelling_letters (m s : jsstring) :
  In m Page.MBTI_TYPES -> map asciiUpper s = m ->
  forallb isAscii s = true /\ solid s = true.
Proof.
  intros Hm Hs.
  assert (Hall : forallb (forallb (fun x => (65 <=? x) && (x <=? 90)))
                   Page.MBTI_TYPES = true) by (vm_compute; reflexivity).
  rewrite forallb_forall in Hall. specialize (Hall m Hm).
  rewrite forallb_forall in Hall.
  assert (Hc : forall c, In c s -> 65 <= c <= 122).
  { intros c Hin. apply asciiUpper_range.
    assert (Hx : In (asciiUpper c) m) by (rewrite <- Hs; now apply in_map).
    specialize (Hall _ Hx). apply andb_true_iff in Hall.
    destruct Hall as [Hlo Hhi].
    apply N.leb_le in Hlo. apply N.leb_le in Hhi. lia. }
  split; [|unfold solid]; apply forallb_forall; intros c Hin;
    destruct (letter_solid c (Hc c Hin)) as [Ha Hw];
    [exact Ha|now rewrite Hw].
Qed.

End Trimming.

Section EndpointInputs.

Import Route.

Variable rt : Builtins.

(** Two requests whose fields read the same get the same run. *)
Lemma POST_same_fields (env : Env) (create : Service)
    (r1 r2 : Request) (p1 p2 : Value) :
  JSON_parse rt (body r1) = Some p1 ->
  JSON_parse rt (body r2) = Some p2 ->
  read_fields rt p1 = read_fields rt p2 ->
  POST rt env create r1 = POST rt env create r2.
Proof.
  intros H1 H2 Hf.
  destruct (truthy (envValue (OPENAI_API_KEY env))) eqn:Hk.
  - rewrite (POST_read rt _ _ _ p1), (POST_read rt _ _ _ p2) by assumption.
    now rewrite Hf.
  - now rewrite !POST_no_key.
Qed.

Lemma lookup_head (k : jsstring) (v : Value)
    (rest : list (jsstring * Value)) :
  lookup k ((k, v) :: rest) = Some v.
Proof.
  unfold lookup. simpl. now rewrite jsstring_eqb_refl.
Qed.

Lemma prop_not_nullish (p : Value) (k s : jsstring) :
  prop p k = Str s -> nullish p = false.
Proof. destruct p; try discriminate; reflexivity. Qed.

(** X5.  A listed type spelled in any mix of upper and lower case, with
    any white space around it, is read as the type itself, is accepted,
    and gets the run the type itself gets, wherever [mbti] stands in the
    body and whatever else the body holds. *)
Theorem padded_mixed_case_accepted (env : Env) (create : Service)
    (r1 r2 : Request) (p1 p2 : Value) (m s ws1 ws2 : jsstring) :
  In m Page.MBTI_TYPES ->
  map asciiUpper s = m ->
  forallb isWhiteSpace ws1 = true ->
  forallb isWhiteSpace ws2 = true ->
  JSON_parse rt (body r1) = Some p1 ->
  JSON_parse rt (body r2) = Some p2 ->
  prop p1 (lit "mbti") = Str (ws1 ++ s ++ ws2) ->
  prop p2 (lit "mbti") = Str m ->
  prop p1 (lit "concern") = prop p2 (lit "concern") ->
  read_mbti rt p1 = Returned m
  /\ mbti_rejected m = false
  /\ POST rt env create r1 = POST rt env create r2.
Proof.
  intros Hm Hs H1 H2 Hp1 Hp2 Hm1 Hm2 Hc.
  destruct (spelling_letters m s Hm Hs) as [Hascii Hsolid].
  destruct (types_pass rt m Hm) as [Hself Hok].
  pose proof (prop_not_nullish p1 _ _ Hm1) as Hn1.
  pose proof (prop_not_nullish p2 _ _ Hm2) as Hn2.
  assert (Hread : read_mbti rt p1 = Returned m).
  { rewrite (read_mbti_typed rt p1 Hn1), Hm1.
    rewrite (trim_padded ws1 s ws2 H1 H2 Hsolid).
    unfold toUpperCase. now rewrite Hascii, Hs. }
  split; [exact Hread|]. split; [exact Hok|].
  apply (POST_same_fields env create r1 r2 _ _ Hp1 Hp2).
  unfold read_fields. rewrite Hread.
  rewrite (read_mbti_typed rt p2 Hn2), Hm2, Hself.
  now rewrite (read_concern_typed p1 Hn1), (read_concern_typed p2 Hn2), Hc.
Qed.

Lemma startsWith_prefix (x q : jsstring) : startsWith (x ++ q) x = true.
Proof.
  induction x as [|a x IH]; [now destruct q|].
  simpl. now rewrite N.eqb_refl, IH.
Qed.

Lemma includes_prefix (x q : jsstring) : includes (x ++ q) x = true.
Proof.
  pose proof (startsWith_prefix x q) as H.
  destruct (x ++ q) as [|a r].
  - change (includes [] x) with (startsWith [] x || false).
    now rewrite H.
  - change (includes (a :: r) x) with (startsWith (a :: r) x || includes r x).
    now rewrite H.
Qed.

Lemma includes_skip (p t x : jsstring) :
  includes t x = true -> includes (p ++ t) x = true.
Proof.
  intros H. induction p as [|a p IH]; [exact H|].
  simpl. rewrite IH. apply orb_true_r.
Qed.

(** The prompt of a request without concern holds the default phrase. *)
Lemma default_phrase_in_prompt (mbti : jsstring) :
  includes (userContent mbti []) (lit "특별한 고민은 적지 않았어요.") = true.
Proof.
  unfold userContent.
  change (concernOrDefault []) with (lit "특별한 고민은 적지 않았어요.").
  do 4 apply includes_skip. apply includes_prefix.
Qed.

(** X6.  A concern of white space only is a concern left out or [null]:
    the run is the same, wherever the fields stand in the body, and the
    prompt of its service call is the one of the empty concern, which
    holds the default phrase. *)
Theorem blank_concern_as_absent (env : Env) (create : Service)
    (r1 r2 : Request) (p1 p2 : Value) (c : jsstring) :
  forallb isWhiteSpace c = true ->
  JSON_parse rt (body r1) = Some p1 ->
  JSON_parse rt (body r2) = Some p2 ->
  nullish p1 = false ->
  prop p1 (lit "mbti") = prop p2 (lit "mbti") ->
  nullish (prop p1 (lit "concern")) = true ->
  prop p2 (lit "concern") = Str c ->
  POST rt env create r1 = POST rt env create r2
  /\ forall params,
       In (Create params) (snd (POST rt env create r2)) ->
       exists mbti,
         params = createParams mbti []
         /\ includes (userContent mbti [])
              (lit "특별한 고민은 적지 않았어요.") = true.
Proof.
  intros Hc Hp1 Hp2 Hn1 Hm Hc1 Hc2.
  pose proof (prop_not_nullish p2 _ _ Hc2) as Hn2.
  assert (Hread1 : read_concern p1 = Returned []).
  { rewrite (read_concern_typed p1 Hn1).
    destruct (prop p1 (lit "concern")); try discriminate Hc1; reflexivity. }
  assert (Hread2 : read_concern p2 = Returned []).
  { rewrite (read_concern_typed p2 Hn2), Hc2. now rewrite (trim_blank c Hc). }
  split.
  - apply (POST_same_fields env create r1 r2 _ _ Hp1 Hp2).
    unfold read_fields. rewrite Hread1, Hread2.
    now rewrite (read_mbti_typed rt p1 Hn1), (read_mbti_typed rt p2 Hn2), Hm.
  - intros params Hin.
    destruct (call_made rt _ _ _ _ Hin)
      as (payload & mbti & concern & _ & Hp & Hr & _ & ->).
    rewrite Hp2 in Hp. inversion Hp; subst payload.
    unfold read_fields in Hr. rewrite Hread2 in Hr.
    destruct (read_mbti rt p2); simpl in Hr; inversion Hr; subst.
    exists mbti. split; [reflexivity|apply default_phrase_in_prompt].
Qed.




(** X8.  The answer [the body could not be read] is given exactly when
    the credential is configured and the body is not JSON; the service is
    not called then. *)
Theorem unreadable_body_iff (env : Env) (create : Service)
    (request : Request) :
  fst (POST rt env create request) = Returned unreadableBody
  <-> truthy (envValue (OPENAI_API_KEY env)) = true
      /\ JSON_parse rt (body request) = None.
Proof.
  destruct missingKey_not_others as (H1 & _ & _ & H4 & H5 & _).
  split.
  - intros H.
    destruct (truthy (envValue (OPENAI_API_KEY env))) eqn:Hk.
    2: { rewrite POST_no_key in H by assumption. inversion H; congruence. }
    split; [reflexivity|].
    destruct (JSON_parse rt (body request)) as [payload|] eqn:Hp;
      [exfalso|reflexivity].
    rewrite (POST_read rt _ _ _ payload) in H by assumption.
    destruct (read_fields rt payload) as [[mbti concern]|e];
      [|discriminate H].
    destruct (mbti_rejected mbti); [inversion H; congruence|].
    destruct (guarded_cases rt create (createParams mbti concern))
      as [(response & _ & Hst & Hrun)|(e & _ & Hrun)];
      rewrite Hrun in H; simpl in H.
    + inversion H; subst response. vm_compute in Hst. discriminate Hst.
    + inversion H; congruence.
  - intros [Hk Hp]. now rewrite POST_unreadable.
Qed.

(** X9.  The answer [choose a valid MBTI type] is given exactly when the
    credential is configured, the body parses to a value of the declared
    type, and its [mbti] is absent, [null], empty once trimmed, or fails
    the pattern once trimmed and in upper case. *)
Theorem invalid_mbti_iff (env : Env) (create : Service) (request : Request) :
  fst (POST rt env create request) = Returned invalidMbti
  <-> truthy (envValue (OPENAI_API_KEY env)) = true
      /\ requestTyped rt request = true
      /\ mbtiUnacceptable rt request = true
      /\ JSON_parse rt (body request) <> None.
Proof.
  destruct missingKey_not_others as (_ & H2 & _ & H4 & _ & H6).
  split.
  - intros H.
    destruct (truthy (envValue (OPENAI_API_KEY env))) eqn:Hk.
    2: { rewrite POST_no_key in H by assumption. inversion H; congruence. }
    split; [reflexivity|].
    destruct (JSON_parse rt (body request)) as [payload|] eqn:Hp.
    2: { rewrite POST_unreadable in H by assumption.
         inversion H; congruence. }
    rewrite (POST_read rt _ _ _ payload) in H by assumption.
    destruct (read_fields rt payload) as [[mbti concern]|e] eqn:Hr;
      [|discriminate H].
    destruct (mbti_rejected mbti) eqn:Hm.
    + split; [|split; [|discriminate]].
      * unfold requestTyped. rewrite Hp.
        exact (read_fields_returns_typed rt payload mbti concern Hr).
      * exact (rejected_unacceptable rt request payload mbti concern
                 Hp Hr Hm).
    + exfalso.
      destruct (guarded_cases rt create (createParams mbti concern))
        as [(response & _ & Hst & Hrun)|(e & _ & Hrun)];
        rewrite Hrun in H; simpl in H.
      * inversion H; subst response. vm_compute in Hst. discriminate Hst.
      * inversion H; congruence.
  - intros (Hk & Ht & Hu & Hp).
    destruct (JSON_parse rt (body request)) as [payload|] eqn:Hp';
      [|congruence].
    rewrite (POST_read rt _ _ _ payload) by assumption.
    unfold requestTyped in Ht. rewrite Hp' in Ht.
    destruct (read_fields_typed rt payload Ht) as (mbti & concern & Hr).
    rewrite Hr.
    now rewrite (unacceptable_rejected rt request payload mbti concern).
Qed.

End EndpointInputs.

Section EndpointFailures.

Import Route.

Variable rt : Builtins.

(** What a run that has called the service ends in. *)
Lemma POST_after_call (env : Env) (create : Service) (request : Request)
    (params : Value) :
  In (Create params) (snd (POST rt env create request)) ->
  POST rt env create request = guarded rt create params.
Proof.
  intros Hin.
  destruct (call_made rt _ _ _ _ Hin)
    as (payload & mbti & concern & Hk & Hp & Hr & Hv & ->).
  rewrite (POST_read rt _ _ _ payload) by assumption.
  now rewrite Hr, Hv.
Qed.

(** X10.  When the service call is rejected, the handler answers with the
    generic failure and status 500, and what the call was rejected with
    goes to the console, not into the response. *)
Theorem service_rejection_generic (env : Env) (create : Service)
    (request : Request) (params : Value) (e : Exn) :
  In (Create params) (snd (POST rt env create request)) ->
  create params = Thrown e ->
  POST rt env create request
  = (Returned generationFailed,
     [Create params; ConsoleError (lit "fortune api error") e])
  /\ status generationFailed = 500.
Proof.
  intros Hin Hc. rewrite (POST_after_call _ _ _ _ Hin).
  unfold guarded, tryBlock. rewrite Hc.
  split; reflexivity.
Qed.

(** X11.  When the content of the completion is neither a string nor an
    array (no first choice, no message, a [null] content), the handler
    answers with the generic failure and logs its own empty-response
    error. *)
Theorem contentless_completion (env : Env) (create : Service)
    (request : Request) (params completion message : Value) :
  In (Create params) (snd (POST rt env create request)) ->
  create params = Returned completion ->
  messageContent completion = Returned message ->
  isString message = false ->
  isArray message = false ->
  POST rt env create request
  = (Returned generationFailed,
     [Create params;
      ConsoleError (lit "fortune api error") emptyModelResponse]).
Proof.
  intros Hin Hc Hm Hs Ha. rewrite (POST_after_call _ _ _ _ Hin).
  unfold guarded, tryBlock. rewrite Hc.
  simpl bind. unfold parseCompletion. rewrite Hm. simpl bind.
  destruct message; try discriminate; reflexivity.
Qed.

(** X12.  A completion that is [null] or has no [choices] makes the
    reading of its first choice throw; that [TypeError] is caught: the
    handler answers with the generic failure and logs it. *)
Theorem completion_without_choices (env : Env) (create : Service)
    (request : Request) (params completion : Value) :
  In (Create params) (snd (POST rt env create request)) ->
  create params = Returned completion ->
  nullish completion = true
  \/ nullish (prop completion (lit "choices")) = true ->
  POST rt env create request
  = (Returned generationFailed,
     [Create params; ConsoleError (lit "fortune api error") TypeError]).
Proof.
  intros Hin Hc Hbad. rewrite (POST_after_call _ _ _ _ Hin).
  unfold guarded, tryBlock. rewrite Hc.
  simpl bind. unfold parseCompletion, messageContent, get.
  destruct (nullish completion) eqn:Hn; [reflexivity|].
  destruct Hbad as [Hbad|Hbad]; [discriminate|].
  simpl bind.
  destruct (prop completion (lit "choices")); try discriminate Hbad;
    reflexivity.
Qed.

End EndpointFailures.

Section EndpointFailureExamples.

Import Route.

Lemma service_rejection_generic_witness :
  POST Sample.builtins Sample.env (fun _ => Thrown (Error (lit "quota")))
    (Sample.request "{'mbti':'enfp'}")
  = (Returned generationFailed,
     [Create (createParams (lit "ENFP") []);
      ConsoleError (lit "fortune api error") (Error (lit "quota"))])
  /\ status generationFailed = 500.
Proof.
  apply (service_rejection_generic Sample.builtins Sample.env
           (fun _ => Thrown (Error (lit "quota")))
           (Sample.request "{'mbti':'enfp'}")
           (createParams (lit "ENFP") [])).
  - vm_compute. left. reflexivity.
  - reflexivity.
Defined.

Lemma contentless_completion_witness :
  POST Sample.builtins Sample.env
    (fun _ => Returned (Obj [(lit "choices", Arr [])]))
    (Sample.request "{'mbti':'enfp'}")
  = (Returned generationFailed,
     [Create (createParams (lit "ENFP") []);
      ConsoleError (lit "fortune api error") emptyModelResponse]).
Proof.
  apply (contentless_completion Sample.builtins Sample.env
           (fun _ => Returned (Obj [(lit "choices", Arr [])]))
           (Sample.request "{'mbti':'enfp'}")
           (createParams (lit "ENFP") [])
           (Obj [(lit "choices", Arr [])]) Undefined).
  - vm_compute. left. reflexivity.
  - reflexivity.
  - vm_compute; reflexivity.
  - reflexivity.
  - reflexivity.
Defined.

Lemma completion_without_choices_witness :
  POST Sample.builtins Sample.env (fun _ => Returned (Obj []))
    (Sample.request "{'mbti':'enfp'}")
  = (Returned generationFailed,
     [Create (createParams (lit "ENFP") []);
      ConsoleError (lit "fortune api error") TypeError]).
Proof.
  apply (completion_without_choices Sample.builtins Sample.env
           (fun _ => Returned (Obj []))
           (Sample.request "{'mbti':'enfp'}")
           (createParams (lit "ENFP") []) (Obj [])).
  - vm_compute. left. reflexivity.
  - reflexivity.
  - right. reflexivity.
Defined.

Lemma service_called_with_listed_type_witness :
  exists mbti concern,
    createParams (lit "INTJ") [] = createParams mbti concern
    /\ In mbti Page.MBTI_TYPES.
Proof.
  apply (service_called_with_listed_type Sample.builtins Sample.env
           Sample.service (Sample.request "{'mbti':'intj'}")).
  vm_compute. left. reflexivity.
Defined.

Lemma padded_mixed_case_accepted_witness :
  read_mbti Sample.builtins
    (Obj [(lit "concern", Str (lit "x")); (lit "mbti", Str (lit " iNtJ  "))])
  = Returned (lit "INTJ")
  /\ mbti_rejected (lit "INTJ") = false
  /\ POST Sample.builtins Sample.env Sample.service
       (Sample.request "{'concern':'x','mbti':' iNtJ  '}")
     = POST Sample.builtins Sample.env Sample.service
         (Sample.request "{'mbti':'INTJ','concern':'x'}").
Proof.
  apply (padded_mixed_case_accepted Sample.builtins Sample.env
           Sample.service
           (Sample.request "{'concern':'x','mbti':' iNtJ  '}")
           (Sample.request "{'mbti':'INTJ','concern':'x'}")
           (Obj [(lit "concern", Str (lit "x"));
                 (lit "mbti", Str (lit " iNtJ  "))])
           (Obj [(lit "mbti", Str (lit "INTJ"));
                 (lit "concern", Str (lit "x"))])
           (lit "INTJ") (lit "iNtJ") (lit " ") (lit "  ")).
  - vm_compute. left. reflexivity.
  - vm_compute; reflexivity.
  - vm_compute; reflexivity.
  - vm_compute; reflexivity.
  - vm_compute; reflexivity.
  - vm_compute; reflexivity.
  - vm_compute; reflexivity.
  - vm_compute; reflexivity.
  - vm_compute; reflexivity.
Defined.

Lemma blank_concern_as_absent_witness :
  POST Sample.builtins Sample.env Sample.service
    (Sample.request "{'concern':null,'mbti':'INTJ'}")
  = POST Sample.builtins Sample.env Sample.service
      (Sample.request "{'mbti':'INTJ','concern':'   '}")
  /\ forall params,
       In (Create params)
         (snd (POST Sample.builtins Sample.env Sample.service
                 (Sample.request "{'mbti':'INTJ','concern':'   '}"))) ->
       exists mbti,
         params = createParams mbti []
         /\ includes (userContent mbti [])
              (lit "특별한 고민은 적지 않았어요.") = true.
Proof.
  apply (blank_concern_as_absent Sample.builtins Sample.env Sample.service
           (Sample.request "{'concern':null,'mbti':'INTJ'}")
           (Sample.request "{'mbti':'INTJ','concern':'   '}")
           (Obj [(lit "concern", Null); (lit "mbti", Str (lit "INTJ"))])
           (Obj [(lit "mbti", Str (lit "INTJ"));
                 (lit "concern", Str (lit "   "))])
           (lit "   ")).
  - vm_compute; reflexivity.
  - vm_compute; reflexivity.
  - vm_compute; reflexivity.
  - reflexivity.
  - vm_compute; reflexivity.
  - vm_compute; reflexivity.
  - vm_compute; reflexivity.
Defined.

End EndpointFailureExamples.

(** ** More on the client view *)

Section Submissions.

Import Page.

Variable rt : Builtins.

Lemma selected_truthy (st : State) :
  mbti st <> [] -> negb (truthy (Str (mbti st))) = false.
Proof. destruct (mbti st); [congruence|reflexivity]. Qed.

(** The state after a whole submission with a type selected. *)
Lemma handleSubmit_run (st : State) (fetched : Fetched) (now : jsstring) :
  mbti st <> [] ->
  run st (handleSubmit rt st fetched now)
  = match bind fetched (readResponse rt) with
    | Returned payload =>
        {| mbti := mbti st; concern := concern st; fortune := payload;
           isLoading := false; error := None; lastUpdated := now |}
    | Thrown c =>
        {| mbti := mbti st; concern := concern st; fortune := fortune st;
           isLoading := false; error := Some (caughtMessage c);
           lastUpdated := lastUpdated st |}
    end.
Proof.
  intros Hsel. unfold handleSubmit, submitStart.
  rewrite (selected_truthy st Hsel).
  change (preventDefault :: ?l) with ([preventDefault] ++ l).
  rewrite !run_app, submitEnd_run. simpl run.
  destruct (bind fetched (readResponse rt)); reflexivity.
Qed.

(** X13.  Submitting with no type selected sends nothing: the only effect
    on the state is the message asking to select a type, whatever the
    network would have answered. *)
Theorem submit_without_type (st : State) (fetched : Fetched)
    (now : jsstring) :
  mbti st = [] ->
  (forall url obj, ~ In (fetch url obj) (handleSubmit rt st fetched now))
  /\ run st (handleSubmit rt st fetched now)
     = set st (setError (Some (lit "MBTI 유형을 선택해 주세요."))).
Proof.
  intros Hsel. unfold handleSubmit, submitStart. rewrite Hsel. simpl.
  split; [|reflexivity].
  intros url obj [H|[H|[]]]; discriminate H.
Qed.

Lemma submitEnd_no_fetch (fetched : Fetched) (now : jsstring)
    (url : jsstring) (obj : Value) :
  ~ In (fetch url obj) (submitEnd rt fetched now).
Proof.
  unfold submitEnd. intros H.
  apply in_app_or in H. destruct H as [H|[H|[]]]; [|discriminate H].
  destruct (bind fetched (readResponse rt)); simpl in H;
    repeat (destruct H as [H|H]; [discriminate H|]); destruct H.
Qed.

(** X14.  Submitting with a type selected sends exactly one request, to
    [/api/fortune], carrying the selected type and the concern as they
    are in the state, after the loading flag is set and the previous
    error cleared; while it is in flight the page is loading, shows no
    error, has its submit button disabled, and keeps its result. *)
Theorem submit_with_type (st : State) (fetched : Fetched) (now : jsstring) :
  mbti st <> [] ->
  (exists rest,
     handleSubmit rt st fetched now
     = [preventDefault; call (setIsLoading true); call (setError None);
        fetch (lit "/api/fortune")
          (Obj [(lit "mbti", Str (mbti st));
                (lit "concern", Str (concern st))])] ++ rest
     /\ forall url obj, ~ In (fetch url obj) rest)
  /\ isLoading (run st (submitStart st)) = true
  /\ error (run st (submitStart st)) = None
  /\ submitDisabled (run st (submitStart st)) = true
  /\ fortune (run st (submitStart st)) = fortune st.
Proof.
  intros Hsel. unfold handleSubmit, submitStart.
  rewrite (selected_truthy st Hsel).
  split; [|repeat split].
  exists (submitEnd rt fetched now). split; [reflexivity|].
  intros url obj. apply submitEnd_no_fetch.
Qed.

(** X15.  A response with a success status and a truthy JSON body becomes
    the stored result, with the time of the update; the error is cleared
    and the page stops loading. *)
Theorem successful_submission_stores (st : State) (response : HttpResponse)
    (payload : Value) (now : jsstring) :
  mbti st <> [] ->
  ok response = true ->
  parsedBody response = Some payload ->
  truthy payload = true ->
  run st (handleSubmit rt st (Returned response) now)
  = {| mbti := mbti st; concern := concern st; fortune := payload;
       isLoading := false; error := None; lastUpdated := now |}.
Proof.
  intros Hsel Hok Hbody Ht. rewrite (handleSubmit_run st _ now Hsel).
  simpl bind. unfold readResponse. rewrite Hok, Hbody, Ht. reflexivity.
Qed.

(** X16.  However a submission with a type selected ends, the page is no
    longer loading afterwards; and it shows no error exactly when the
    response had a success status and a truthy JSON body. *)
Theorem submission_settles (st : State) (fetched : Fetched)
    (now : jsstring) :
  mbti st <> [] ->
  isLoading (run st (handleSubmit rt st fetched now)) = false
  /\ (error (run st (handleSubmit rt st fetched now)) = None
      <-> exists response payload,
            fetched = Returned response
            /\ ok response = true
            /\ parsedBody response = Some payload
            /\ truthy payload = true).
Proof.
  intros Hsel. rewrite (handleSubmit_run st fetched now Hsel).
  destruct (bind fetched (readResponse rt)) as [payload|c] eqn:Hb.
  - split; [reflexivity|]. split; [intros _|reflexivity].
    destruct (stored_succeeded rt fetched payload Hb)
      as (response & Hf & Hok & Hbody & Ht).
    exists response, payload. auto.
  - split; [reflexivity|]. split; [discriminate|].
    intros (response & payload & -> & Hok & Hbody & Ht).
    simpl in Hb. unfold readResponse in Hb.
    rewrite Hok, Hbody, Ht in Hb. discriminate Hb.
Qed.

(** X17.  The message a failed submission stores.  For a response that
    is refused (a status that is not a success, or a body that is falsy
    or does not parse): the [error] string of the body when it has one;
    a fixed text when the body has no [error] or a [null] one, which
    takes in the bodies that are [null], falsy or unparseable; for an
    [error] that is not a string, what converting it to a string gives.
    For a request that failed: the message of the exception when it is
    an [Error], another fixed text otherwise. *)
Theorem error_message_selection (st : State) (now : jsstring) :
  (forall response payload,
     payload = match parsedBody response with
               | Some v => v
               | None => Null
               end ->
     ok response = false \/ truthy payload = false ->
     (forall m,
        getOpt payload (lit "error") = Str m ->
        error (run st (submitEnd rt (Returned response) now)) = Some m)
     /\ (nullish (getOpt payload (lit "error")) = true ->
         error (run st (submitEnd rt (Returned response) now))
         = Some (lit "점괘를 가져오는 중 문제가 발생했어요."))
     /\ (nullish (getOpt payload (lit "error")) = false ->
         error (run st (submitEnd rt (Returned response) now))
         = Some (match ToString rt (getOpt payload (lit "error")) with
                 | Returned m => m
                 | Thrown m => m
                 end)))
  /\ (forall m,
        error (run st (submitEnd rt (Thrown (ErrorInstance m)) now))
        = Some m)
  /\ error (run st (submitEnd rt (Thrown NotAnError) now))
     = Some (lit "알 수 없는 오류가 발생했어요.").
Proof.
  split; [|split].
  - intros response payload Hpayload Hfail.
    assert (Hrun : error (run st (submitEnd rt (Returned response) now))
                   = Some (caughtMessage
                             (newError rt
                                (coalesce (getOpt payload (lit "error"))
                                   (Str (lit "점괘를 가져오는 중 문제가 발생했어요.")))))).
    { rewrite submitEnd_run. simpl bind. unfold readResponse.
      rewrite <- Hpayload.
      assert (Hc : negb (ok response) || negb (truthy payload) = true).
      { destruct Hfail as [-> | ->]; [reflexivity|apply orb_true_r]. }
      rewrite Hc. reflexivity. }
    rewrite Hrun. unfold coalesce, newError.
    split; [|split].
    + intros m Hm. rewrite Hm. reflexivity.
    + intros Hn. rewrite Hn. reflexivity.
    + intros Hn. rewrite Hn.
      destruct (ToString rt (getOpt payload (lit "error"))); reflexivity.
  - intros m. rewrite submitEnd_run. reflexivity.
  - rewrite submitEnd_run. reflexivity.
Qed.

End Submissions.

Section EndToEnd.

Import Page.

Variable rt : Builtins.

Lemma error_of_errorBody (m : jsstring) :
  getOpt (Route.errorBody m) (lit "error") = Str m.
Proof.
  unfold Route.errorBody, getOpt, prop. simpl nullish. cbv iota.
  now rewrite lookup_head.
Qed.

(** A response of the endpoint that is not a success is one of its four
    error responses. *)
Lemma POST_error_bodies (env : Route.Env) (create : Route.Service)
    (request : Route.Request) (r : Route.Response) :
  fst (Route.POST rt env create request) = Returned r ->
  Route.isSuccess r = false ->
  r = Route.missingKey \/ r = Route.unreadableBody
  \/ r = Route.invalidMbti \/ r = Route.generationFailed.
Proof.
  intros Hr Hs.
  destruct (POST_runs rt env create request)
    as [H|[H|[H|[H|[(p & v & H)|(p & x & H)]]]]];
    rewrite H in Hr; cbn [fst] in Hr.
  - left. congruence.
  - right; left. congruence.
  - right; right; left. congruence.
  - discriminate Hr.
  - replace r with {| Route.status := 200; Route.json := v |} in Hs
      by congruence.
    discriminate Hs.
  - right; right; right. congruence.
Qed.

(** X18.  Every error response of the endpoint, once the page has
    received it (a status that is not a success, the same JSON body),
    becomes the page's error, word for word, and leaves the stored result
    and its time alone. *)
Theorem endpoint_error_reaches_page (env : Route.Env)
    (create : Route.Service) (request : Route.Request)
    (r : Route.Response) (response : HttpResponse) (st : State)
    (now : jsstring) :
  fst (Route.POST rt env create request) = Returned r ->
  Route.isSuccess r = false ->
  ok response = Route.isSuccess r ->
  parsedBody response = Some (Route.json r) ->
  exists m,
    Route.json r = Route.errorBody m
    /\ run st (submitEnd rt (Returned response) now)
       = {| mbti := mbti st; concern := concern st; fortune := fortune st;
            isLoading := false; error := Some m;
            lastUpdated := lastUpdated st |}.
Proof.
  intros Hr Hs Hok Hbody.
  assert (Hm : exists m, Route.json r = Route.errorBody m).
  { destruct (POST_error_bodies env create request r Hr Hs)
      as [-> | [-> | [-> | ->]]]; eexists; reflexivity. }
  destruct Hm as [m Hm]. exists m. split; [exact Hm|].
  rewrite submitEnd_run. simpl bind. unfold readResponse.
  rewrite Hok, Hs, Hbody, Hm. simpl orb. cbv iota.
  rewrite error_of_errorBody. reflexivity.
Qed.

(** X19.  The page stores the body of a successful response without
    looking at its shape: a truthy body whose [energyLevel] is not a
    string becomes the result, and computing the energy tone of that
    result throws. *)
Theorem unchecked_payload_breaks_tone (st : State) (response : HttpResponse)
    (payload : Value) (now : jsstring) :
  ok response = true ->
  parsedBody response = Some payload ->
  truthy payload = true ->
  Route.isString (prop payload (lit "energyLevel")) = false ->
  fortune (run st (submitEnd rt (Returned response) now)) = payload
  /\ energyTone (fortune (run st (submitEnd rt (Returned response) now)))
     = Thrown TypeError.
Proof.
  intros Hok Hbody Ht Hl.
  assert (Hf : fortune (run st (submitEnd rt (Returned response) now))
               = payload).
  { rewrite submitEnd_run. simpl bind. unfold readResponse.
    rewrite Hok, Hbody, Ht. reflexivity. }
  split; [exact Hf|]. rewrite Hf.
  unfold energyTone, get. rewrite Ht. simpl negb. cbv iota.
  assert (Hn : nullish payload = false)
    by (destruct payload; try discriminate Ht; reflexivity).
  rewrite Hn. simpl bind.
  destruct (prop payload (lit "energyLevel")); try discriminate Hl;
    reflexivity.
Qed.

(** What the settled half of a submission leaves in [fortune]. *)
Lemma submitEnd_fortune (st : State) (fetched : Fetched) (now : jsstring) :
  fortune (run st (submitEnd rt fetched now)) = fortune st
  \/ truthy (fortune (run st (submitEnd rt fetched now))) = true.
Proof.
  rewrite submitEnd_run.
  destruct (bind fetched (readResponse rt)) as [payload|c] eqn:Hb;
    [right|left; reflexivity].
  destruct (stored_succeeded rt fetched payload Hb) as (_ & _ & _ & _ & Ht).
  exact Ht.
Qed.

Lemma submitStart_fortune (st : State) :
  fortune (run st (submitStart st)) = fortune st.
Proof.
  unfold submitStart. destruct (negb (truthy (Str (mbti st)))); reflexivity.
Qed.

Lemma step_fortune (st st' : State) (e : UIEvent) :
  step rt st e st' ->
  fortune st' = fortune st \/ truthy (fortune st') = true.
Proof.
  intros Hstep.
  destruct Hstep as [st v Hv|st v|st v Hv Hl|st|st fetched now];
    try (left; reflexivity).
  - left. apply submitStart_fortune.
  - apply submitEnd_fortune.
Qed.

Lemma result_null_or_truthy (st : State) :
  reachable rt st -> fortune st = Null \/ truthy (fortune st) = true.
Proof.
  induction 1 as [|s ev s' _ IH Hstep]; [left; reflexivity|].
  destruct (step_fortune s s' ev Hstep) as [Heq|Ht]; [|right; exact Ht].
  now rewrite Heq.
Qed.

(** X20.  In a state the page can reach, a stored result that is not
    [null] is truthy, so that the test [!fortune] tells exactly whether
    there is a result; and whatever event comes next, there is still a
    result after it. *)
Theorem result_never_lost (st st' : State) (e : UIEvent) :
  reachable rt st ->
  step rt st e st' ->
  fortune st <> Null ->
  truthy (fortune st) = true /\ truthy (fortune st') = true.
Proof.
  intros Hreach Hstep Hsome.
  assert (Ht : truthy (fortune st) = true).
  { destruct (result_null_or_truthy st Hreach) as [Hnull|Ht];
      [congruence|exact Ht]. }
  split; [exact Ht|].
  destruct (step_fortune st st' e Hstep) as [Heq|Ht']; [|exact Ht'].
  now rewrite Heq.
Qed.

(** The tone of a result whose [energyLevel] is a string. *)
Lemma energyTone_level (fortune : Value) (level : jsstring) :
  prop fortune (lit "energyLevel") = Str level ->
  energyTone fortune
  = Returned (Some (if includes level [45458] then high
                    else if includes level [45230] then low
                    else mid)).
Proof.
  intros Hl.
  destruct fortune as [| |b|n|s|l|ps]; try discriminate Hl.
  unfold energyTone, get.
  change (truthy (Obj ps)) with true. change (nullish (Obj ps)) with false.
  cbv beta iota delta [negb bind]. rewrite Hl.
  cbv beta iota delta [callTrim].
  rewrite high_marker, low_marker.
  rewrite !includes_trim by reflexivity.
  destruct (includes level [45458]); [reflexivity|].
  destruct (includes level [45230]); reflexivity.
Qed.

(** X21.  With no result the energy class is the empty string; with a
    result whose [energyLevel] is a string it is the entry of the style
    sheet named [energyHigh], [energyLow] or [energyMid], by the marker
    the string contains. *)
Theorem energy_class_by_marker (styles : Value) :
  energyClass styles None = Str []
  /\ forall (fortune : Value) (level : jsstring),
       prop fortune (lit "energyLevel") = Str level ->
       exists t,
         energyTone fortune = Returned (Some t)
         /\ energyClass styles (Some t)
            = prop styles
                (if includes level (lit "높") then lit "energyHigh"
                 else if includes level (lit "낮") then lit "energyLow"
                 else lit "energyMid").
Proof.
  split; [reflexivity|].
  intros fortune level Hl. rewrite (energyTone_level fortune level Hl).
  rewrite high_marker, low_marker.
  eexists. split; [reflexivity|].
  destruct (includes level [45458]); [reflexivity|].
  destruct (includes level [45230]); reflexivity.
Qed.

(** X22.  The error paragraph is rendered only for a message that is not
    empty: a failed response whose [error] is the empty string stores it,
    keeps the result, and shows no error at all. *)
Theorem empty_error_not_shown (st : State) (response : HttpResponse)
    (payload : Value) (now : jsstring) :
  ok response = false ->
  parsedBody response = Some payload ->
  getOpt payload (lit "error") = Str [] ->
  error (run st (submitEnd rt (Returned response) now)) = Some []
  /\ errorParagraph (run st (submitEnd rt (Returned response) now)) = None
  /\ fortune (run st (submitEnd rt (Returned response) now)) = fortune st.
Proof.
  intros Hok Hbody Herr.
  rewrite submitEnd_run. simpl bind. unfold readResponse.
  rewrite Hok, Hbody, Herr. repeat split.
Qed.

End EndToEnd.

Section ClientRunExamples.

Import Page.

Lemma submit_without_type_witness :
  (forall url obj,
     ~ In (fetch url obj)
         (handleSubmit Sample.builtins initial Sample.refused (lit "10:31")))
  /\ run initial
       (handleSubmit Sample.builtins initial Sample.refused (lit "10:31"))
     = set initial (setError (Some (lit "MBTI 유형을 선택해 주세요."))).
Proof.
  apply (submit_without_type Sample.builtins initial Sample.refused
           (lit "10:31")).
  reflexivity.
Defined.

Lemma submit_with_type_witness :
  (exists rest,
     handleSubmit Sample.builtins Sample.shown Sample.refused (lit "10:31")
     = [preventDefault; call (setIsLoading true); call (setError None);
        fetch (lit "/api/fortune")
          (Obj [(lit "mbti", Str (mbti Sample.shown));
                (lit "concern", Str (concern Sample.shown))])] ++ rest
     /\ forall url obj, ~ In (fetch url obj) rest)
  /\ isLoading (run Sample.shown (submitStart Sample.shown)) = true
  /\ error (run Sample.shown (submitStart Sample.shown)) = None
  /\ submitDisabled (run Sample.shown (submitStart Sample.shown)) = true
  /\ fortune (run Sample.shown (submitStart Sample.shown))
     = fortune Sample.shown.
Proof.
  apply (submit_with_type Sample.builtins Sample.shown Sample.refused
           (lit "10:31")).
  vm_compute. discriminate.
Defined.

Lemma successful_submission_stores_witness :
  run (set initial (setMbti (lit "ENFP")))
    (handleSubmit Sample.builtins (set initial (setMbti (lit "ENFP")))
       (Returned {| ok := true; parsedBody := Some Sample.fortuneValue |})
       (lit "10:31"))
  = {| mbti := lit "ENFP"; concern := [];
       fortune := Sample.fortuneValue; isLoading := false;
       error := None; lastUpdated := lit "10:31" |}.
Proof.
  apply (successful_submission_stores Sample.builtins
           (set initial (setMbti (lit "ENFP")))
           {| ok := true; parsedBody := Some Sample.fortuneValue |}
           Sample.fortuneValue (lit "10:31")).
  - vm_compute. discriminate.
  - reflexivity.
  - reflexivity.
  - reflexivity.
Defined.

Lemma submission_settles_witness :
  isLoading
    (run Sample.shown
       (handleSubmit Sample.builtins Sample.shown Sample.refused
          (lit "10:31"))) = false.
Proof.
  apply (submission_settles Sample.builtins Sample.shown Sample.refused
           (lit "10:31")).
  vm_compute. discriminate.
Defined.

Lemma error_message_selection_witness :
  error
    (run Sample.shown
       (submitEnd Sample.builtins
          (Returned {| ok := true; parsedBody := Some (Bool false) |})
          (lit "10:31")))
  = Some (lit "점괘를 가져오는 중 문제가 발생했어요.").
Proof.
  apply (proj1 (error_message_selection Sample.builtins Sample.shown
                  (lit "10:31"))
           {| ok := true; parsedBody := Some (Bool false) |} (Bool false)).
  - reflexivity.
  - right. reflexivity.
  - reflexivity.
Defined.

Lemma endpoint_error_reaches_page_witness :
  exists m,
    Route.json Route.invalidMbti = Route.errorBody m
    /\ run Sample.shown
         (submitEnd Sample.builtins
            (Returned {| ok := false;
                         parsedBody := Some (Route.json Route.invalidMbti) |})
            (lit "10:31"))
       = {| mbti := mbti Sample.shown; concern := concern Sample.shown;
            fortune := fortune Sample.shown; isLoading := false;
            error := Some m; lastUpdated := lastUpdated Sample.shown |}.
Proof.
  apply (endpoint_error_reaches_page Sample.builtins Sample.env
           Sample.service (Sample.request "{'mbti':'INTX'}")
           Route.invalidMbti
           {| ok := false;
              parsedBody := Some (Route.json Route.invalidMbti) |}).
  - vm_compute; reflexivity.
  - reflexivity.
  - reflexivity.
  - reflexivity.
Defined.

Lemma unchecked_payload_breaks_tone_witness :
  fortune
    (run Sample.shown
       (submitEnd Sample.builtins
          (Returned {| ok := true; parsedBody := Some (Obj []) |})
          (lit "10:31"))) = Obj []
  /\ energyTone
       (fortune
          (run Sample.shown
             (submitEnd Sample.builtins
                (Returned {| ok := true; parsedBody := Some (Obj []) |})
                (lit "10:31"))))
     = Thrown TypeError.
Proof.
  apply (unchecked_payload_breaks_tone Sample.builtins Sample.shown
           {| ok := true; parsedBody := Some (Obj []) |} (Obj [])
           (lit "10:31")); reflexivity.
Defined.

Lemma shown_reachable : reachable Sample.builtins Sample.shown.
Proof.
  apply (reach_step _
           (run (set initial (setMbti (lit "INTJ")))
              (submitStart (set initial (setMbti (lit "INTJ")))))
           (settle Sample.accepted (lit "10:30"))).
  - apply (reach_step _ (set initial (setMbti (lit "INTJ"))) submit).
    + apply (reach_step _ initial (selectOption (lit "INTJ"))).
      * apply reach_initial.
      * apply step_select. vm_compute. right. left. reflexivity.
    + apply step_submit.
  - change Sample.shown
      with (run (run (set initial (setMbti (lit "INTJ")))
                   (submitStart (set initial (setMbti (lit "INTJ")))))
              (submitEnd Sample.builtins Sample.accepted (lit "10:30"))).
    apply step_settle.
Qed.

Lemma result_never_lost_witness :
  truthy (fortune Sample.shown) = true
  /\ truthy
       (fortune
          (run Sample.shown
             (submitEnd Sample.builtins Sample.refused (lit "10:31"))))
     = true.
Proof.
  apply (result_never_lost Sample.builtins Sample.shown
           (run Sample.shown
              (submitEnd Sample.builtins Sample.refused (lit "10:31")))
           (settle Sample.refused (lit "10:31"))).
  - exact shown_reachable.
  - apply step_settle.
  - vm_compute. discriminate.
Defined.

Lemma energy_class_by_marker_witness :
  exists t,
    energyTone (Obj [(lit "energyLevel", Str (lit "낮음"))])
    = Returned (Some t)
    /\ energyClass (Obj [(lit "energyLow", Str (lit "page_energyLow"))])
         (Some t)
       = prop (Obj [(lit "energyLow", Str (lit "page_energyLow"))])
           (if includes (lit "낮음") (lit "높") then lit "energyHigh"
            else if includes (lit "낮음") (lit "낮") then lit "energyLow"
            else lit "energyMid").
Proof.
  apply (proj2 (energy_class_by_marker
                  (Obj [(lit "energyLow", Str (lit "page_energyLow"))]))
           (Obj [(lit "energyLevel", Str (lit "낮음"))]) (lit "낮음")).
  reflexivity.
Defined.

Lemma empty_error_not_shown_witness :
  error
    (run Sample.shown
       (submitEnd Sample.builtins
          (Returned {| ok := false;
                       parsedBody := Some (Route.errorBody []) |})
          (lit "10:31"))) = Some []
  /\ errorParagraph
       (run Sample.shown
          (submitEnd Sample.builtins
             (Returned {| ok := false;
                          parsedBody := Some (Route.errorBody []) |})
             (lit "10:31"))) = None
  /\ fortune
       (run Sample.shown
          (submitEnd Sample.builtins
             (Returned {| ok := false;
                          parsedBody := Some (Route.errorBody []) |})
             (lit "10:31"))) = fortune Sample.shown.
Proof.
  apply (empty_error_not_shown Sample.builtins Sample.shown
           {| ok := false; parsedBody := Some (Route.errorBody []) |}
           (Route.errorBody []) (lit "10:31")).
  - reflexivity.
  - reflexivity.
  - vm_compute; reflexivity.
Defined.

End ClientRunExamples.
